(** * starlette_exporter: the Prometheus middleware

    A shallow embedding of [src/starlette_exporter/middleware.py]:
    the two metric factories, the constructor of [PrometheusMiddleware]
    and its [dispatch] method, followed by the properties of the
    request instrumentation.

    The web framework, the clock, the logger and the metrics library
    are collaborators of the middleware.  Every call the middleware
    makes to them is appended to a chronological trace.  The metrics
    library is modelled with the behaviour the middleware meets: the
    process-wide default registry, in which a constructor registers the
    name of its metric and which refuses a name it already holds; the
    conversion of label values to text by [labels]; and the clock of
    [time.time()], whose readings are binary64 floating-point numbers.
    The registry is modelled by the names the constructors are given;
    the validation of metric names and the series names the library
    derives from a metric name are not modelled. *)

From Stdlib Require Import ZArith Lia.
From Stdlib Require Import Floats.PrimFloat Numbers.Cyclic.Int63.Uint63.
From stdpp Require Import base option list strings gmap pretty.

(** ** Python values *)

(** An exception object: its class name, its message, and whether the
    class derives from [Exception] (what an [except Exception] clause
    tests; [KeyboardInterrupt], [SystemExit], [GeneratorExit] and, on
    recent interpreters, [asyncio.CancelledError] do not). *)
Record PyException := mk_exception {
  exc_type : string;
  exc_msg : string;
  exc_is_Exception : bool
}.

Definition KeyError (key : string) : PyException :=
  mk_exception "KeyError" key true.
Definition AttributeError (attr : string) : PyException :=
  mk_exception "AttributeError" attr true.
Definition IndexError : PyException :=
  mk_exception "IndexError" "list index out of range" true.
Definition UnboundLocalError (name : string) : PyException :=
  mk_exception "UnboundLocalError" name true.
Definition ValueError (msg : string) : PyException :=
  mk_exception "ValueError" msg true.

(** A route object of the router, duck typed as the code reads it: the
    attributes [path] and [endpoint] may each be absent ([Mount] has a
    path and no endpoint, [Host] has neither).  Endpoints are callables,
    compared by identity. *)
Record Route := mk_route {
  route_path : option string;
  route_endpoint : option nat
}.

(** The values found in [request.scope] and in the list [labels]. *)
Inductive PyObj :=
| PNone
| PStr (s : string)
| PInt (z : Z)
| PCallable (id : nat)
| PRouter (routes : list Route).

(** Truth value of an object, as [and] and [if] test it. *)
Definition truthy (v : PyObj) : bool :=
  match v with
  | PNone => false
  | PStr s => negb (String.eqb s "")
  | PInt z => negb (Z.eqb z 0)
  | PCallable _ => true
  | PRouter _ => true
  end.

(** [route.endpoint == v] for an endpoint attribute that is present. *)
Definition endpoint_eq (ep : nat) (v : PyObj) : bool :=
  match v with
  | PCallable id => Nat.eqb ep id
  | _ => false
  end.

(** [str(v)]: a string is itself, an integer is its decimal numeral.
    The text of a callable or of a router is its [repr], written here
    as a fixed word; [dispatch] passes strings and an integer only. *)
Definition py_str (v : PyObj) : string :=
  match v with
  | PNone => "None"
  | PStr s => s
  | PInt z => pretty z
  | PCallable _ => "<function>"
  | PRouter _ => "<router>"
  end.

Definition result (A : Type) : Type := (PyException + A)%type.

(** ** Requests, responses and the downstream continuation *)

Record URL := mk_url { url_path : string }.

(** [request.method] and [request.url]; [request.scope] is a dictionary
    shared with the rest of the handler chain and lives in the store. *)
Record Request := mk_request {
  method : string;
  url : URL
}.

Record Response := mk_response {
  status_code : Z;
  body : string
}.

(** What awaiting [call_next(request)] does: it returns a response or
    raises, it may have updated the shared scope (the router records the
    resolved endpoint and itself there), and time has passed. *)
Record Downstream := mk_downstream {
  dn_outcome : result Response;
  dn_scope : gmap string PyObj;
  dn_elapsed : Z
}.

Definition Continuation : Type := Request -> gmap string PyObj -> Downstream.

(** ** The store and the trace of calls *)

Inductive MetricKind := KCounter | KHistogram.

(** [EvTime] is a reading of the clock; [EvCounter] and [EvHistogram]
    are constructions that the registry accepted, [EvDuplicate] one that
    it refused. *)
Inductive Event :=
| EvTime (t : float)
| EvCallNext (request : Request)
| EvLogError (e : PyException)
| EvCounter (obj : nat) (name documentation : string) (labelnames : list string)
| EvHistogram (obj : nat) (name documentation : string) (labelnames : list string)
| EvDuplicate (kind : MetricKind) (name : string)
| EvInc (obj : nat) (labelvalues : list string)
| EvObserve (obj : nat) (labelvalues : list string) (amount : float).

(** [w_now] is the instant, in ticks of elapsed time, and [w_clock] the
    reading [time.time()] returns at an instant; [w_scan_time] is the
    time that passes while the route table is scanned; [w_scope] is the
    dictionary [request.scope]; [w_registry] holds the metric names
    registered in the default registry of the process; [w_next_obj]
    numbers the metric objects constructed so far; [w_trace] lists the
    calls made, oldest first. *)
Record World := mk_world {
  w_now : Z;
  w_clock : Z -> float;
  w_scan_time : Z;
  w_scope : gmap string PyObj;
  w_registry : gset string;
  w_next_obj : nat;
  w_trace : list Event
}.

(** The local variables of [dispatch] that are assigned inside the
    [try] and [finally] blocks; [None] is an unbound name. *)
Record Locals := mk_locals {
  l_path : option string;
  l_status_code : option Z;
  l_response : option Response
}.

(** The middleware object: the attributes [__init__] assigns. *)
Record PrometheusMiddleware := mk_middleware {
  app : Continuation;
  group_paths : bool;
  app_name : string
}.

(** The state a call of [dispatch] runs in: the object [self] refers to,
    the local variables and the store. *)
Record St := mk_st {
  st_self : PrometheusMiddleware;
  st_locals : Locals;
  st_world : World
}.

(** ** A state and exception monad *)

Definition M (A : Type) : Type := St -> result A * St.

Definition ret {A} (a : A) : M A := fun s => (inr a, s).

Definition bind {A B} (m : M A) (k : A -> M B) : M B :=
  fun s => match m s with
           | (inl e, s') => (inl e, s')
           | (inr a, s') => k a s'
           end.

Definition raise {A} (e : PyException) : M A := fun s => (inl e, s).

Definition lift {A} (r : result A) : M A := fun s => (r, s).

Declare Scope py_scope.
Delimit Scope py_scope with py.
Notation "x <- c1 ;; c2" := (bind c1 (fun x => c2))
  (at level 100, c1 at next level, right associativity) : py_scope.
Notation "c1 ;; c2" := (bind c1 (fun _ => c2))
  (at level 100, right associativity) : py_scope.

(** [try: body except Exception as e: handler(e)]. *)
Definition try_except {A} (body : M A) (handler : PyException -> M A) : M A :=
  fun s => match body s with
           | (inl e, s') => if exc_is_Exception e then handler e s' else (inl e, s')
           | (inr a, s') => (inr a, s')
           end.

(** [try: body finally: final].  The final block always runs; when it
    raises, its exception replaces the outcome of the body, otherwise the
    outcome of the body stands. *)
Definition try_finally {A} (body : M A) (final : M unit) : M A :=
  fun s => match body s with
           | (r, s') => match final s' with
                        | (inl e, s'') => (inl e, s'')
                        | (inr _, s'') => (r, s'')
                        end
           end.

Definition modify_world (f : World -> World) : M unit :=
  fun s => (inr tt, mk_st (st_self s) (st_locals s) (f (st_world s))).

Definition modify_locals (f : Locals -> Locals) : M unit :=
  fun s => (inr tt, mk_st (st_self s) (f (st_locals s)) (st_world s)).

Definition emit (ev : Event) (w : World) : World :=
  mk_world (w_now w) (w_clock w) (w_scan_time w) (w_scope w) (w_registry w)
           (w_next_obj w) (w_trace w ++ [ev]).

Definition advance (d : Z) (w : World) : World :=
  mk_world (w_now w + d) (w_clock w) (w_scan_time w) (w_scope w) (w_registry w)
           (w_next_obj w) (w_trace w).

Definition with_scope (sc : gmap string PyObj) (w : World) : World :=
  mk_world (w_now w) (w_clock w) (w_scan_time w) sc (w_registry w)
           (w_next_obj w) (w_trace w).

(** A metric object is constructed under [name]: the name enters the
    registry and the object gets the next number. *)
Definition alloc (name : string) (w : World) : World :=
  mk_world (w_now w) (w_clock w) (w_scan_time w) (w_scope w)
           ({[name]} ∪ w_registry w) (S (w_next_obj w)) (w_trace w).

(** Assignment to, and reading of, the local variables. *)
Definition set_path (p : string) : M unit :=
  modify_locals (fun l => mk_locals (Some p) (l_status_code l) (l_response l)).
Definition set_status_code (c : Z) : M unit :=
  modify_locals (fun l => mk_locals (l_path l) (Some c) (l_response l)).
Definition set_response (r : Response) : M unit :=
  modify_locals (fun l => mk_locals (l_path l) (l_status_code l) (Some r)).

Definition read_local {A} (name : string) (field : Locals -> option A) : M A :=
  fun s => match field (st_locals s) with
           | Some a => (inr a, s)
           | None => (inl (UnboundLocalError name), s)
           end.

(** [self.attr] *)
Definition self_attr {A} (attr : PrometheusMiddleware -> A) : M A :=
  fun s => (inr (attr (st_self s)), s).

Definition get_path : M string := read_local "path" l_path.
Definition get_status_code : M Z := read_local "status_code" l_status_code.
Definition get_response : M Response := read_local "response" l_response.

(** ** The collaborators *)

(** [time.time()]: the reading of the clock at the present instant. *)
Definition time_time : M float :=
  fun s => let t := w_clock (st_world s) (w_now (st_world s)) in
           (inr t, mk_st (st_self s) (st_locals s) (emit (EvTime t) (st_world s))).

(** [await call_next(request)] *)
Definition await (call_next : Continuation) (request : Request) : M Response :=
  fun s =>
    let w := st_world s in
    let d := call_next request (w_scope w) in
    (dn_outcome d,
     mk_st (st_self s) (st_locals s)
           (advance (dn_elapsed d) (with_scope (dn_scope d) (emit (EvCallNext request) w)))).

(** [request.scope] *)
Definition request_scope : M (gmap string PyObj) :=
  fun s => (inr (w_scope (st_world s)), s).

(** [logger.error(e)] *)
Definition logger_error (e : PyException) : M unit := modify_world (emit (EvLogError e)).

(** [d.get(key, default)] and [d[key]] *)
Definition dict_get (d : gmap string PyObj) (key : string) (default : PyObj) : PyObj :=
  match d !! key with
  | Some v => v
  | None => default
  end.

Definition dict_getitem (d : gmap string PyObj) (key : string) : result PyObj :=
  match d !! key with
  | Some v => inr v
  | None => inl (KeyError key)
  end.

(** A metric object of the metrics library and a labelled child of it. *)
Record Metric := mk_metric {
  metric_obj : nat;
  metric_kind : MetricKind;
  metric_name : string;
  metric_documentation : string;
  metric_labelnames : list string
}.

Record Child := mk_child { child_of : Metric; child_labelvalues : list string }.

(** The error of the registry for a name it already holds. *)
Definition Duplicated (name : string) : PyException :=
  ValueError ("Duplicated timeseries in CollectorRegistry: " +:+ name).

(** [Counter(name, documentation, labelnames)] and
    [Histogram(name, documentation, labelnames)]: the constructor
    registers the metric in the default registry, which raises when the
    name is registered already; otherwise a new metric object results. *)
Definition Counter (name documentation : string) (labelnames : list string) : M Metric :=
  fun s =>
    let w := st_world s in
    if decide (name ∈ w_registry w) then
      (inl (Duplicated name),
       mk_st (st_self s) (st_locals s) (emit (EvDuplicate KCounter name) w))
    else
      let obj := w_next_obj w in
      (inr (mk_metric obj KCounter name documentation labelnames),
       mk_st (st_self s) (st_locals s)
             (alloc name (emit (EvCounter obj name documentation labelnames) w))).

Definition Histogram (name documentation : string) (labelnames : list string) : M Metric :=
  fun s =>
    let w := st_world s in
    if decide (name ∈ w_registry w) then
      (inl (Duplicated name),
       mk_st (st_self s) (st_locals s) (emit (EvDuplicate KHistogram name) w))
    else
      let obj := w_next_obj w in
      (inr (mk_metric obj KHistogram name documentation labelnames),
       mk_st (st_self s) (st_locals s)
             (alloc name (emit (EvHistogram obj name documentation labelnames) w))).

(** [metric.labels], applied to the unpacked list of label values: one
    value per label name is required, and each value is converted with
    [str] before it is used as a label value. *)
Definition labels (m : Metric) (labelvalues : list PyObj) : M Child :=
  if Nat.eqb (length labelvalues) (length (metric_labelnames m))
  then ret (mk_child m (py_str <$> labelvalues))
  else raise (ValueError "Incorrect label count").

(** [child.inc()] and [child.observe(amount)] *)
Definition inc (c : Child) : M unit :=
  modify_world (emit (EvInc (metric_obj (child_of c)) (child_labelvalues c))).

Definition observe (c : Child) (amount : float) : M unit :=
  modify_world (emit (EvObserve (metric_obj (child_of c)) (child_labelvalues c) amount)).

(** ** The module [starlette_exporter.middleware] *)

Local Open Scope py_scope.

Definition make_request_time_histogram (app_name : string) : M Metric :=
  Histogram (app_name +:+ "_request_duration_seconds")
            "HTTP request duration, in seconds"
            ["method"; "path"; "status_code"; "app_name"].

Definition make_request_time_counter (app_name : string) : M Metric :=
  Counter (app_name +:+ "_requests_total")
          "Total HTTP requests"
          ["method"; "path"; "status_code"; "app_name"].

(** [PrometheusMiddleware.__init__(self, app, group_paths=False,
    app_name="starlette")]; an argument that the caller leaves out is
    [None] here and takes its default. *)
Definition __init__ (app : Continuation) (group_paths : option bool)
    (app_name : option string) : PrometheusMiddleware :=
  mk_middleware app (default false group_paths) (default "starlette" app_name).

(** [status.HTTP_500_INTERNAL_SERVER_ERROR] *)
Definition HTTP_500_INTERNAL_SERVER_ERROR : Z := 500.

(** [router.routes]: only a router object has the attribute. *)
Definition getattr_routes (v : PyObj) : result (list Route) :=
  match v with
  | PRouter routes => inr routes
  | _ => inl (AttributeError "routes")
  end.

(** The list comprehension
    [[route for route in routes if route.endpoint == request.scope['endpoint']]]:
    the routes are visited in order; for each one the attribute
    [endpoint] is read, then the scope entry, then the two are compared. *)
Fixpoint routes_matching (scope : gmap string PyObj) (routes : list Route)
    : result (list Route) :=
  match routes with
  | [] => inr []
  | route :: rest =>
      match route_endpoint route with
      | None => inl (AttributeError "endpoint")
      | Some ep =>
          match dict_getitem scope "endpoint" with
          | inl e => inl e
          | inr target =>
              match routes_matching scope rest with
              | inl e => inl e
              | inr found => inr (if endpoint_eq ep target then route :: found else found)
              end
          end
      end
  end.

(** The right-hand side of line 58,
    [[...][0].path] over [request.scope['router'].routes]. *)
Definition find_route_path (scope : gmap string PyObj) : result string :=
  match dict_getitem scope "router" with
  | inl e => inl e
  | inr router =>
      match getattr_routes router with
      | inl e => inl e
      | inr routes =>
          match routes_matching scope routes with
          | inl e => inl e
          | inr [] => inl IndexError
          | inr (route :: _) =>
              match route_path route with
              | None => inl (AttributeError "path")
              | Some p => inr p
              end
          end
      end
  end.

(** [route.endpoint == target], false when the attribute is absent. *)
Definition route_matches (target : PyObj) (route : Route) : bool :=
  match route_endpoint route with
  | Some ep => endpoint_eq ep target
  | None => false
  end.

Definition has_endpoint (route : Route) : Prop := is_Some (route_endpoint route).

(** Evaluating that expression takes [w_scan_time] of time. *)
Definition route_lookup : M string :=
  scope <- request_scope ;;
  modify_world (fun w => advance (w_scan_time w) w) ;;
  lift (find_route_path scope).

(** [PrometheusMiddleware.dispatch(self, request, call_next)] *)
Definition dispatch (request : Request) (call_next : Continuation) : M Response :=
  let method_ := method request in
  set_path (url_path (url request)) ;;
  begin <- time_time ;;
  set_status_code HTTP_500_INTERNAL_SERVER_ERROR ;;
  try_finally
    (try_except
       (response <- await call_next request ;;
        set_response response ;;
        set_status_code (status_code response))
       (fun e => raise e))
    (self_group_paths <- self_attr group_paths ;;
     scope <- request_scope ;;
     (if self_group_paths && truthy (dict_get scope "endpoint" PNone)
      then try_except (p <- route_lookup ;; set_path p) (fun e => logger_error e)
      else ret tt) ;;
     end_ <- time_time ;;
     name1 <- self_attr app_name ;;
     REQUEST_COUNT <- make_request_time_counter name1 ;;
     name2 <- self_attr app_name ;;
     REQUEST_TIME <- make_request_time_histogram name2 ;;
     path <- get_path ;;
     code <- get_status_code ;;
     name3 <- self_attr app_name ;;
     let labels_ := [PStr method_; PStr path; PInt code; PStr name3] in
     counter_child <- labels REQUEST_COUNT labels_ ;;
     inc counter_child ;;
     histogram_child <- labels REQUEST_TIME labels_ ;;
     observe histogram_child (PrimFloat.sub end_ begin)) ;;
  get_response.

(** A call of the method: a new frame, in which no local is bound yet.
    The call returns its outcome, the object and the store. *)
Definition unbound : Locals := mk_locals None None None.

Definition call_dispatch (self : PrometheusMiddleware) (request : Request)
    (call_next : Continuation) (w : World)
    : result Response * PrometheusMiddleware * World :=
  match dispatch request call_next (mk_st self unbound w) with
  | (r, s) => (r, st_self s, st_world s)
  end.

Local Close Scope py_scope.

(** ** Reading a trace *)

(** The events a call added to the trace. *)
Definition emitted (w w' : World) : list Event :=
  drop (length (w_trace w)) (w_trace w').

(** The name and label names a metric object was constructed with. *)
Definition constructed (obj : nat) (ev : Event) : option (MetricKind * string * list string) :=
  match ev with
  | EvCounter o name _ labelnames =>
      if Nat.eqb o obj then Some (KCounter, name, labelnames) else None
  | EvHistogram o name _ labelnames =>
      if Nat.eqb o obj then Some (KHistogram, name, labelnames) else None
  | _ => None
  end.

Definition metric_of (tr : list Event) (obj : nat) : option (MetricKind * string * list string) :=
  head (omap (constructed obj) tr).

(** A recorded sample: the metric it went to and its labels, each label
    name paired with the value used for it. *)
Record Sample := mk_sample {
  sample_kind : MetricKind;
  sample_metric : string;
  sample_labels : list (string * string)
}.

Definition sample_of (tr : list Event) (obj : nat) (labelvalues : list string) : option Sample :=
  match metric_of tr obj with
  | Some (kind, name, labelnames) => Some (mk_sample kind name (zip labelnames labelvalues))
  | None => None
  end.

(** The counter increments and the histogram observations of a trace
    that go to a metric constructed in the trace. *)
Definition increments (tr : list Event) : list Sample :=
  omap (fun ev => match ev with
                  | EvInc obj labelvalues => sample_of tr obj labelvalues
                  | _ => None
                  end) tr.

Definition observations (tr : list Event) : list (Sample * float) :=
  omap (fun ev => match ev with
                  | EvObserve obj labelvalues amount =>
                      match sample_of tr obj labelvalues with
                      | Some s => Some (s, amount)
                      | None => None
                      end
                  | _ => None
                  end) tr.

(** Every call of [inc] and of [observe] in a trace, by the object it
    was made on. *)
Definition inc_targets (tr : list Event) : list nat :=
  omap (fun ev => match ev with EvInc obj _ => Some obj | _ => None end) tr.

Definition observe_targets (tr : list Event) : list nat :=
  omap (fun ev => match ev with EvObserve obj _ _ => Some obj | _ => None end) tr.

Definition logged (tr : list Event) : list PyException :=
  omap (fun ev => match ev with EvLogError e => Some e | _ => None end) tr.

(** The value of a label in a sample. *)
Definition label (name : string) (s : Sample) : option string :=
  snd <$> head (filter (fun nv => String.eqb (fst nv) name = true) (sample_labels s)).

(** The metric objects a trace constructs. *)
Definition constructions (tr : list Event) : list (nat * MetricKind * string) :=
  omap (fun ev => match ev with
                  | EvCounter obj name _ _ => Some (obj, KCounter, name)
                  | EvHistogram obj name _ _ => Some (obj, KHistogram, name)
                  | _ => None
                  end) tr.




Definition clock_reads (tr : list Event) : list float :=
  omap (fun ev => match ev with EvTime t => Some t | _ => None end) tr.

(** The requests the downstream continuation was invoked with. *)
Definition calls_next (tr : list Event) : list Request :=
  omap (fun ev => match ev with EvCallNext request => Some request | _ => None end) tr.

(** ** What a call of [dispatch] does, in closed form *)

(** The names the two factories construct their metrics with. *)
Definition counter_name (self : PrometheusMiddleware) : string :=
  app_name self +:+ "_requests_total".

Definition histogram_name (self : PrometheusMiddleware) : string :=
  app_name self +:+ "_request_duration_seconds".

(** Neither name is in the registry yet. *)
Definition unregistered (self : PrometheusMiddleware) (w : World) : Prop :=
  (counter_name self ∉ w_registry w) /\ (histogram_name self ∉ w_registry w).

(** How the two constructions of a call fare with the registry. *)
Inductive Registration := Registered | CounterRefused | HistogramRefused.

Definition registration (self : PrometheusMiddleware) (w : World) : Registration :=
  if decide (counter_name self ∈ w_registry w) then CounterRefused
  else if decide (histogram_name self ∈ w_registry w) then HistogramRefused
  else Registered.

(** The grouping branch of the final block is entered. *)
Definition grouping (self : PrometheusMiddleware) (scope : gmap string PyObj) : bool :=
  group_paths self && truthy (dict_get scope "endpoint" PNone).

Definition final_path (self : PrometheusMiddleware) (request : Request)
    (scope : gmap string PyObj) : string :=
  if grouping self scope then
    match find_route_path scope with
    | inr p => p
    | inl _ => url_path (url request)
    end
  else url_path (url request).

Definition final_status (outcome : result Response) : Z :=
  match outcome with
  | inr response => status_code response
  | inl _ => HTTP_500_INTERNAL_SERVER_ERROR
  end.

Definition final_labels (self : PrometheusMiddleware) (request : Request)
    (d : Downstream) : list string :=
  [method request; final_path self request (dn_scope d);
   pretty (final_status (dn_outcome d)); app_name self].

Definition lookup_log (self : PrometheusMiddleware) (scope : gmap string PyObj) : list Event :=
  if grouping self scope then
    match find_route_path scope with
    | inr _ => []
    | inl e => [EvLogError e]
    end
  else [].

Definition lookup_time (self : PrometheusMiddleware) (w : World) (scope : gmap string PyObj) : Z :=
  if grouping self scope then w_scan_time w else 0%Z.

(** The instant of the second reading of the clock. *)
Definition end_instant (self : PrometheusMiddleware) (d : Downstream) (w : World) : Z :=
  (w_now w + dn_elapsed d + lookup_time self w (dn_scope d))%Z.

(** The amount a call observes: the second reading minus the first. *)
Definition elapsed (self : PrometheusMiddleware) (d : Downstream) (w : World) : float :=
  PrimFloat.sub (w_clock w (end_instant self d w)) (w_clock w (w_now w)).

Definition metric_events (self : PrometheusMiddleware) (request : Request)
    (d : Downstream) (w : World) : list Event :=
  let n := w_next_obj w in
  match registration self w with
  | CounterRefused => [EvDuplicate KCounter (counter_name self)]
  | HistogramRefused =>
      [EvCounter n (counter_name self) "Total HTTP requests"
         ["method"; "path"; "status_code"; "app_name"];
       EvDuplicate KHistogram (histogram_name self)]
  | Registered =>
      [EvCounter n (counter_name self) "Total HTTP requests"
         ["method"; "path"; "status_code"; "app_name"];
       EvHistogram (S n) (histogram_name self) "HTTP request duration, in seconds"
         ["method"; "path"; "status_code"; "app_name"];
       EvInc n (final_labels self request d);
       EvObserve (S n) (final_labels self request d) (elapsed self d w)]
  end.

Definition dispatch_events (self : PrometheusMiddleware) (request : Request)
    (d : Downstream) (w : World) : list Event :=
  [EvTime (w_clock w (w_now w)); EvCallNext request]
  ++ lookup_log self (dn_scope d)
  ++ EvTime (w_clock w (end_instant self d w)) :: metric_events self request d w.

Definition dispatch_outcome (self : PrometheusMiddleware) (d : Downstream) (w : World)
    : result Response :=
  match registration self w with
  | CounterRefused => inl (Duplicated (counter_name self))
  | HistogramRefused => inl (Duplicated (histogram_name self))
  | Registered => dn_outcome d
  end.

Definition registry_after (self : PrometheusMiddleware) (w : World) : gset string :=
  match registration self w with
  | CounterRefused => w_registry w
  | HistogramRefused => {[counter_name self]} ∪ w_registry w
  | Registered => {[histogram_name self]} ∪ ({[counter_name self]} ∪ w_registry w)
  end.

Definition next_obj_after (self : PrometheusMiddleware) (w : World) : nat :=
  match registration self w with
  | CounterRefused => w_next_obj w
  | HistogramRefused => S (w_next_obj w)
  | Registered => S (S (w_next_obj w))
  end.

Definition dispatch_world (self : PrometheusMiddleware) (request : Request)
    (d : Downstream) (w : World) : World :=
  mk_world (end_instant self d w) (w_clock w) (w_scan_time w) (dn_scope d)
           (registry_after self w) (next_obj_after self w)
           (w_trace w ++ dispatch_events self request d w).

(** The sample of a call: its labels under the four label names. *)
Definition call_sample (self : PrometheusMiddleware) (request : Request)
    (d : Downstream) (kind : MetricKind) (name : string) : Sample :=
  mk_sample kind name
    (zip ["method"; "path"; "status_code"; "app_name"] (final_labels self request d)).

(** ** Observations of a call *)

Definition outcome (self : PrometheusMiddleware) (request : Request)
    (call_next : Continuation) (w : World) : result Response :=
  (call_dispatch self request call_next w).1.1.

Definition self_after (self : PrometheusMiddleware) (request : Request)
    (call_next : Continuation) (w : World) : PrometheusMiddleware :=
  (call_dispatch self request call_next w).1.2.

Definition store_after (self : PrometheusMiddleware) (request : Request)
    (call_next : Continuation) (w : World) : World :=
  (call_dispatch self request call_next w).2.

(** The calls that one call of [dispatch] makes, in order. *)
Definition recorded (self : PrometheusMiddleware) (request : Request)
    (call_next : Continuation) (w : World) : list Event :=
  emitted w (store_after self request call_next w).

(** Whatever the trace reports satisfies [P]: every call of [inc] and
    of [observe] in it goes to a metric constructed in it, and [P] holds
    of every sample. *)
Definition reported (evs : list Event) (P : Sample -> Prop) : Prop :=
  Forall P (increments evs) /\
  Forall (fun o => P o.1) (observations evs) /\
  length (increments evs) = length (inc_targets evs) /\
  length (observations evs) = length (observe_targets evs).

(** The trace holds exactly one call of [inc], on a counter, and
    exactly one call of [observe], on a histogram, and [P] holds of the
    two samples. *)
Definition both_metrics (evs : list Event) (P : Sample -> Prop) : Prop :=
  exists c h amount,
    increments evs = [c] /\ observations evs = [(h, amount)] /\
    length (inc_targets evs) = 1%nat /\ length (observe_targets evs) = 1%nat /\
    sample_kind c = KCounter /\ sample_kind h = KHistogram /\
    P c /\ P h.

(** No call of [inc] or [observe] and no construction. *)
Definition nothing_recorded (evs : list Event) : Prop :=
  inc_targets evs = [] /\ observe_targets evs = [] /\ constructions evs = [].

(** The sample of a metric of the middleware, in full. *)
Definition sample_as_written (self : PrometheusMiddleware) (request : Request)
    (d : Downstream) (s : Sample) : Prop :=
  sample_metric s
    = match sample_kind s with
      | KCounter => app_name self +:+ "_requests_total"
      | KHistogram => app_name self +:+ "_request_duration_seconds"
      end /\
  sample_labels s
    = [("method", method request);
       ("path", final_path self request (dn_scope d));
       ("status_code", pretty (final_status (dn_outcome d)));
       ("app_name", app_name self)].

(** The path label is the raw path or the path of a matching entry. *)
Definition raw_or_registered (self : PrometheusMiddleware) (request : Request)
    (scope : gmap string PyObj) (s : Sample) : Prop :=
  exists p,
    label "path" s = Some p /\
    (p = url_path (url request) \/
     group_paths self = true /\
     exists routes target route,
       scope !! "router" = Some (PRouter routes) /\
       scope !! "endpoint" = Some target /\
       route ∈ routes /\
       route_matches target route = true /\
       route_path route = Some p).

(** The same middleware with [group_paths] off. *)
Definition without_grouping (self : PrometheusMiddleware) : PrometheusMiddleware :=
  mk_middleware (app self) false (app_name self).

(** ** A sequence of calls *)

(** One request as the dispatcher hands it to the middleware: the
    request, its own scope dictionary, and the continuation. *)
Record Exchange := mk_exchange {
  ex_request : Request;
  ex_scope : gmap string PyObj;
  ex_call_next : Continuation
}.

(** The method called once per request, one request after the other, on
    the same object and the same store. *)
Fixpoint serve (self : PrometheusMiddleware) (exchanges : list Exchange) (w : World)
    : list (result Response) * PrometheusMiddleware * World :=
  match exchanges with
  | [] => ([], self, w)
  | ex :: rest =>
      match call_dispatch self (ex_request ex) (ex_call_next ex)
              (with_scope (ex_scope ex) w) with
      | (r, self', w') =>
          match serve self' rest w' with
          | (rs, self'', w'') => (r :: rs, self'', w'')
          end
      end
  end.

(** ** Concrete requests *)

Module Sample_app.

(** [GET /items/42], served by the endpoint numbered 1. *)
Definition get_item : Request := mk_request "GET" (mk_url "/items/42").

Definition item_route : Route := mk_route (Some "/items/{id}") (Some 1%nat).

(** A table with one route per endpoint. *)
Definition plain_routes : list Route :=
  [mk_route (Some "/health") (Some 0%nat); item_route].

(** The same table behind a mounted sub-application, which has a path
    and no endpoint. *)
Definition mounted_routes : list Route :=
  [mk_route (Some "/static") None; item_route].

(** The endpoint registered under two templates. *)
Definition doubled_routes : list Route :=
  [mk_route (Some "/things/{id}") (Some 1%nat); item_route].

(** The router resolves the request: it records the endpoint and
    itself in the scope. *)
Definition resolve (routes : list Route) (scope : gmap string PyObj)
    : gmap string PyObj :=
  <["endpoint" := PCallable 1]> (<["router" := PRouter routes]> scope).

Definition responds (code : Z) (routes : list Route) : Continuation :=
  fun _ scope => mk_downstream (inr (mk_response code "item")) (resolve routes scope) 5.

(** No route is resolved; the framework answers 404. *)
Definition not_found : Continuation :=
  fun _ scope => mk_downstream (inr (mk_response 404 "Not Found")) scope 1.

Definition boom : PyException := mk_exception "RuntimeError" "boom" true.

Definition crashes (routes : list Route) : Continuation :=
  fun _ scope => mk_downstream (inl boom) (resolve routes scope) 5.

Definition grouped : PrometheusMiddleware :=
  __init__ not_found (Some true) (Some "svc").

Definition ungrouped : PrometheusMiddleware :=
  __init__ not_found None None.

(** A clock that counts seconds, the instants being milliseconds. *)
Definition clock (t : Z) : float :=
  PrimFloat.div (PrimFloat.of_uint63 (Uint63.of_Z t)) 1000%float.

(** The store of a process that has constructed no metric yet. *)
Definition boot : World := mk_world 1000 clock 2 ∅ ∅ 0 [].

(** The store after the middleware [grouped] has served one request. *)
Definition served : World :=
  with_scope ∅ (store_after grouped get_item (responds 200 plain_routes) boot).

End Sample_app.

(** ** Lemmas on the route lookup *)

Lemma routes_matching_raises scope routes e :
  routes_matching scope routes = inl e -> exc_is_Exception e = true.
Proof.
  induction routes as [|route rest IH]; simpl; [discriminate|].
  destruct (route_endpoint route) as [ep|]; [|intros [= <-]; reflexivity].
  unfold dict_getitem. destruct (scope !! "endpoint") as [target|].
  - destruct (routes_matching scope rest) as [e'|found]; [|discriminate].
    intros [= <-]. apply IH. reflexivity.
  - intros [= <-]. reflexivity.
Qed.

(** Every failure of the lookup is one an [except Exception] clause
    catches. *)
Lemma find_route_path_raises scope e :
  find_route_path scope = inl e -> exc_is_Exception e = true.
Proof.
  unfold find_route_path, dict_getitem.
  destruct (scope !! "router") as [router|]; [|intros [= <-]; reflexivity].
  destruct router; simpl; try (intros [= <-]; reflexivity).
  destruct (routes_matching scope routes) as [e'|found] eqn:Hm.
  - intros [= <-]. eapply routes_matching_raises, Hm.
  - destruct found as [|route ?]; [intros [= <-]; reflexivity|].
    destruct (route_path route); [discriminate|intros [= <-]; reflexivity].
Qed.

(** When every entry of the table has an endpoint attribute, the
    comprehension is a filter. *)
Lemma routes_matching_filter scope routes target :
  scope !! "endpoint" = Some target ->
  Forall has_endpoint routes ->
  routes_matching scope routes = inr (List.filter (route_matches target) routes).
Proof.
  intros Ht. induction 1 as [|route rest [ep Hep] _ IH]; [reflexivity|].
  cbn [routes_matching List.filter]. unfold route_matches at 1, dict_getitem.
  rewrite Hep, Ht, IH. reflexivity.
Qed.

(** An entry without the attribute stops the scan, whatever follows. *)
Lemma routes_matching_no_endpoint scope before route after :
  scope !! "endpoint" <> None ->
  Forall has_endpoint before ->
  route_endpoint route = None ->
  routes_matching scope (before ++ route :: after) = inl (AttributeError "endpoint").
Proof.
  intros Ht Hb Hr. induction Hb as [|r rest [ep Hep] _ IH]; cbn [List.app routes_matching].
  - rewrite Hr. reflexivity.
  - rewrite Hep. unfold dict_getitem in *.
    destruct (scope !! "endpoint"); [|congruence]. rewrite IH. reflexivity.
Qed.

Lemma find_route_path_first scope target routes route T :
  scope !! "endpoint" = Some target ->
  scope !! "router" = Some (PRouter routes) ->
  Forall has_endpoint routes ->
  head (List.filter (route_matches target) routes) = Some route ->
  route_path route = Some T ->
  find_route_path scope = inr T.
Proof.
  intros Ht Hr Hall Hhead HT. unfold find_route_path, dict_getitem.
  rewrite Hr. cbn [getattr_routes].
  rewrite (routes_matching_filter _ _ _ Ht Hall).
  destruct (List.filter (route_matches target) routes) as [|r ?]; [discriminate|].
  injection Hhead as ->. rewrite HT. reflexivity.
Qed.

(** The route table is unavailable. *)
Lemma find_route_path_no_router scope :
  scope !! "router" = None -> find_route_path scope = inl (KeyError "router").
Proof. intros H. unfold find_route_path, dict_getitem. rewrite H. reflexivity. Qed.

(** No entry of the table matches the endpoint. *)
Lemma find_route_path_no_match scope target routes :
  scope !! "endpoint" = Some target ->
  scope !! "router" = Some (PRouter routes) ->
  Forall has_endpoint routes ->
  List.filter (route_matches target) routes = [] ->
  find_route_path scope = inl IndexError.
Proof.
  intros Ht Hr Hall Hnone. unfold find_route_path, dict_getitem.
  rewrite Hr. cbn [getattr_routes].
  rewrite (routes_matching_filter _ _ _ Ht Hall), Hnone. reflexivity.
Qed.

(** What a scan that completes tells about the table. *)
Lemma routes_matching_completes scope routes found :
  routes_matching scope routes = inr found ->
  Forall has_endpoint routes /\
  (routes = [] \/ exists target, scope !! "endpoint" = Some target) /\
  (forall target, scope !! "endpoint" = Some target ->
     found = List.filter (route_matches target) routes).
Proof.
  revert found. induction routes as [|route rest IH]; intros found.
  - intros [= <-]. repeat split; auto.
  - cbn [routes_matching]. destruct (route_endpoint route) as [ep|] eqn:Hep; [|discriminate].
    unfold dict_getitem. destruct (scope !! "endpoint") as [target|] eqn:Ht; [|discriminate].
    destruct (routes_matching scope rest) as [e|found'] eqn:Hrest; [discriminate|].
    intros [= <-]. destruct (IH found' eq_refl) as (Hall & _ & Hf).
    split; [|split].
    + constructor; [eexists; exact Hep|exact Hall].
    + right. eexists. reflexivity.
    + intros target' [= <-]. cbn [List.filter]. unfold route_matches at 1.
      rewrite Hep, (Hf target eq_refl). reflexivity.
Qed.

(** The lookup reads two entries of the scope and nothing else. *)
Lemma routes_matching_ext scope1 scope2 routes :
  scope1 !! "endpoint" = scope2 !! "endpoint" ->
  routes_matching scope1 routes = routes_matching scope2 routes.
Proof.
  intros He. induction routes as [|route rest IH]; [reflexivity|].
  cbn [routes_matching]. unfold dict_getitem. rewrite He, IH. reflexivity.
Qed.

Lemma find_route_path_ext scope1 scope2 :
  scope1 !! "router" = scope2 !! "router" ->
  scope1 !! "endpoint" = scope2 !! "endpoint" ->
  find_route_path scope1 = find_route_path scope2.
Proof.
  intros Hr He. unfold find_route_path, dict_getitem. rewrite Hr.
  destruct (scope2 !! "router") as [router|]; [|reflexivity].
  destruct (getattr_routes router) as [e|routes]; [reflexivity|].
  rewrite (routes_matching_ext _ _ _ He). reflexivity.
Qed.

(** A lookup that returns has found the first matching entry. *)
Lemma find_route_path_returns scope T :
  find_route_path scope = inr T ->
  exists routes target route,
    scope !! "router" = Some (PRouter routes) /\
    scope !! "endpoint" = Some target /\
    Forall has_endpoint routes /\
    head (List.filter (route_matches target) routes) = Some route /\
    route_path route = Some T.
Proof.
  unfold find_route_path, dict_getitem.
  destruct (scope !! "router") as [router|] eqn:Hr; [|discriminate].
  destruct router as [| | | |routes]; cbn [getattr_routes]; try discriminate.
  destruct (routes_matching scope routes) as [e|found] eqn:Hm; [discriminate|].
  destruct found as [|route found']; [discriminate|].
  destruct (route_path route) as [p|] eqn:Hp; [|discriminate].
  intros [= <-].
  destruct (routes_matching_completes _ _ _ Hm) as (Hall & Hne & Hf).
  destruct Hne as [-> | [target Ht]]; [discriminate Hm|].
  exists routes, target, route. rewrite <- (Hf target Ht). auto.
Qed.

Lemma head_filter_elem (target : PyObj) (routes : list Route) (route : Route) :
  head (List.filter (route_matches target) routes) = Some route ->
  route ∈ routes /\ route_matches target route = true.
Proof.
  intros Hhead.
  assert (Hin : In route (List.filter (route_matches target) routes)).
  { destruct (List.filter (route_matches target) routes); [discriminate|].
    injection Hhead as ->. left. reflexivity. }
  apply List.filter_In in Hin. destruct Hin as [Hin Hm].
  split; [apply list_elem_of_In, Hin|exact Hm].
Qed.

(** ** The names of the metrics *)

Lemma list_ascii_of_string_append (a s : string) :
  String.list_ascii_of_string (a +:+ s)
  = String.list_ascii_of_string a ++ String.list_ascii_of_string s.
Proof. induction a as [|c a IH]; [reflexivity|]. simpl. f_equal. exact IH. Qed.

Lemma append_inj_r (a b s : string) : a +:+ s = b +:+ s -> a = b.
Proof.
  intros H. apply (f_equal String.list_ascii_of_string) in H.
  rewrite !list_ascii_of_string_append in H. apply app_inv_tail in H.
  rewrite <- (String.string_of_list_ascii_of_string a), H.
  apply String.string_of_list_ascii_of_string.
Qed.

Lemma counter_name_is_no_histogram_name (a b : string) :
  a +:+ "_requests_total" <> b +:+ "_request_duration_seconds".
Proof.
  intros H. apply (f_equal (fun s => last (String.list_ascii_of_string s))) in H.
  cbn beta in H. rewrite !list_ascii_of_string_append in H.
  rewrite !last_app in H. vm_compute in H. discriminate H.
Qed.

Lemma counter_name_inj self1 self2 :
  counter_name self1 = counter_name self2 -> app_name self1 = app_name self2.
Proof. apply append_inj_r. Qed.

Lemma histogram_name_inj self1 self2 :
  histogram_name self1 = histogram_name self2 -> app_name self1 = app_name self2.
Proof. apply append_inj_r. Qed.

Lemma counter_histogram_names self1 self2 :
  counter_name self1 <> histogram_name self2.
Proof. apply counter_name_is_no_histogram_name. Qed.

(** ** The registry *)

Lemma registration_registered self w :
  unregistered self w -> registration self w = Registered.
Proof.
  intros [Hc Hh]. unfold registration.
  rewrite decide_False by exact Hc. rewrite decide_False by exact Hh. reflexivity.
Qed.

Lemma registration_counter_refused self w :
  counter_name self ∈ w_registry w -> registration self w = CounterRefused.
Proof. intros Hc. unfold registration. rewrite decide_True by exact Hc. reflexivity. Qed.

Lemma registration_histogram_refused self w :
  counter_name self ∉ w_registry w -> histogram_name self ∈ w_registry w ->
  registration self w = HistogramRefused.
Proof.
  intros Hc Hh. unfold registration.
  rewrite decide_False by exact Hc. rewrite decide_True by exact Hh. reflexivity.
Qed.

Lemma registration_cases self w :
  (registration self w = Registered /\ unregistered self w) \/
  (registration self w = CounterRefused /\ counter_name self ∈ w_registry w) \/
  (registration self w = HistogramRefused /\
   (counter_name self ∉ w_registry w) /\ histogram_name self ∈ w_registry w).
Proof.
  unfold registration, unregistered.
  destruct (decide (counter_name self ∈ w_registry w)) as [Hc|Hc]; [auto|].
  destruct (decide (histogram_name self ∈ w_registry w)) as [Hh|Hh]; auto.
Qed.

(** The counter's name entering the registry does not bar the
    histogram's. *)
Lemma histogram_name_after_counter self (registry : gset string) :
  histogram_name self ∈ ({[counter_name self]} ∪ registry : gset string)
  <-> histogram_name self ∈ registry.
Proof.
  rewrite elem_of_union, elem_of_singleton. split; [|auto].
  intros [Heq|Hin]; [|exact Hin].
  destruct (counter_histogram_names self self). symmetry. exact Heq.
Qed.

Lemma decide_histogram_after_counter {A} (a : string) (registry : gset string) (x y : A) :
  (if decide (a +:+ "_request_duration_seconds"
              ∈ ({[a +:+ "_requests_total"]} ∪ registry : gset string))
   then x else y)
  = if decide (a +:+ "_request_duration_seconds" ∈ registry) then x else y.
Proof.
  pose proof (histogram_name_after_counter (mk_middleware (fun _ sc => mk_downstream (inl IndexError) sc 0) false a) registry) as Hiff.
  unfold histogram_name, counter_name in Hiff. cbn [app_name] in Hiff.
  destruct (decide (a +:+ "_request_duration_seconds" ∈ registry)) as [Hh|Hh].
  - rewrite decide_True; [reflexivity|]. apply Hiff, Hh.
  - rewrite decide_False; [reflexivity|]. intros Hin. apply Hh, Hiff, Hin.
Qed.

(** ** The closed form of a call *)

(** Unfolding of the monadic operations, and reduction of the record
    projections that this exposes. *)
Ltac unfold_py :=
  unfold call_dispatch, dispatch, make_request_time_counter,
    make_request_time_histogram, route_lookup, set_path, set_status_code,
    set_response, get_path, get_status_code, get_response, logger_error,
    inc, observe, labels, Counter, Histogram, read_local, self_attr,
    time_time, await, request_scope, modify_world, modify_locals,
    try_except, try_finally, bind, ret, raise, lift,
    emit, advance, with_scope, alloc, unbound.

Ltac reduce_py :=
  cbn [st_self st_locals st_world l_path l_status_code l_response
       w_now w_clock w_scan_time w_scope w_registry w_next_obj w_trace
       dn_outcome dn_scope dn_elapsed
       metric_obj child_of child_labelvalues metric_labelnames
       length Nat.eqb fmap list_fmap py_str].

(** The final block from the second reading of the clock on, by the
    answer of the registry. *)
Ltac registry_cases self w :=
  unfold registration, counter_name, histogram_name;
  destruct (decide (app_name self +:+ "_requests_total" ∈ w_registry w)) as [Hc|Hc];
  reduce_py;
  [|rewrite !decide_histogram_after_counter;
    destruct (decide (app_name self +:+ "_request_duration_seconds" ∈ w_registry w))
      as [Hh|Hh];
    reduce_py].

Lemma call_dispatch_eq self request call_next w :
  call_dispatch self request call_next w =
  let d := call_next request (w_scope w) in
  (dispatch_outcome self d w, self, dispatch_world self request d w).
Proof.
  unfold_py. reduce_py.
  destruct (call_next request (w_scope w)) as [downstream scope passed].
  cbv zeta.
  unfold dispatch_world, dispatch_events, dispatch_outcome, metric_events,
    registry_after, next_obj_after, elapsed, end_instant, final_labels, final_path,
    lookup_log, lookup_time, final_status, grouping.
  reduce_py.
  destruct downstream as [e|response];
    [destruct (exc_is_Exception e)|];
    reduce_py;
    (destruct (group_paths self && truthy (dict_get scope "endpoint" PNone));
     reduce_py;
     [destruct (find_route_path scope) as [e'|p] eqn:Hl;
      [rewrite (find_route_path_raises _ _ Hl)|]|]);
    reduce_py;
    registry_cases self w;
    rewrite <- ?List.app_assoc; cbn [List.app];
    rewrite ?Z.add_0_r; reflexivity.
Qed.

Lemma outcome_eq self request call_next w :
  outcome self request call_next w
  = dispatch_outcome self (call_next request (w_scope w)) w.
Proof. unfold outcome. rewrite call_dispatch_eq. reflexivity. Qed.

Lemma self_after_eq self request call_next w :
  self_after self request call_next w = self.
Proof. unfold self_after. rewrite call_dispatch_eq. reflexivity. Qed.

Lemma store_after_eq self request call_next w :
  store_after self request call_next w =
  dispatch_world self request (call_next request (w_scope w)) w.
Proof. unfold store_after. rewrite call_dispatch_eq. reflexivity. Qed.

Lemma recorded_eq self request call_next w :
  recorded self request call_next w =
  dispatch_events self request (call_next request (w_scope w)) w.
Proof.
  unfold recorded, emitted. rewrite store_after_eq.
  unfold dispatch_world. cbn [w_trace]. apply drop_app_length.
Qed.

Lemma outcome_unregistered self request call_next w :
  unregistered self w ->
  outcome self request call_next w = dn_outcome (call_next request (w_scope w)).
Proof.
  intros Hu. rewrite outcome_eq. unfold dispatch_outcome.
  rewrite (registration_registered _ _ Hu). reflexivity.
Qed.

Lemma eqb_succ_false n : Nat.eqb (S n) n = false.
Proof. apply Nat.eqb_neq. lia. Qed.

Lemma eqb_succ_false' n : Nat.eqb n (S n) = false.
Proof. apply Nat.eqb_neq. lia. Qed.

Lemma lookup_log_cases self scope :
  lookup_log self scope = [] \/ exists e, lookup_log self scope = [EvLogError e].
Proof.
  unfold lookup_log. destruct (grouping self scope); [|auto].
  destruct (find_route_path scope) as [e|p]; eauto.
Qed.

Ltac read_trace :=
  cbn [List.app omap list_omap constructed head];
  rewrite ?Nat.eqb_refl, ?eqb_succ_false, ?eqb_succ_false';
  cbn [List.app omap list_omap constructed head].

(** The events of a call, read by the answer of the registry. *)
Ltac by_registration self d w :=
  unfold dispatch_events, metric_events;
  destruct (registration self w);
  destruct (lookup_log_cases self (dn_scope d)) as [->|[? ->]].

Lemma increments_dispatch_events self request d w :
  increments (dispatch_events self request d w) =
  match registration self w with
  | Registered => [call_sample self request d KCounter (counter_name self)]
  | _ => []
  end.
Proof.
  unfold increments, sample_of, metric_of, call_sample.
  by_registration self d w; repeat read_trace; reflexivity.
Qed.

Lemma observations_dispatch_events self request d w :
  observations (dispatch_events self request d w) =
  match registration self w with
  | Registered =>
      [(call_sample self request d KHistogram (histogram_name self), elapsed self d w)]
  | _ => []
  end.
Proof.
  unfold observations, sample_of, metric_of, call_sample.
  by_registration self d w; repeat read_trace; reflexivity.
Qed.

Lemma inc_targets_dispatch_events self request d w :
  inc_targets (dispatch_events self request d w) =
  match registration self w with
  | Registered => [w_next_obj w]
  | _ => []
  end.
Proof. unfold inc_targets. by_registration self d w; reflexivity. Qed.

Lemma observe_targets_dispatch_events self request d w :
  observe_targets (dispatch_events self request d w) =
  match registration self w with
  | Registered => [S (w_next_obj w)]
  | _ => []
  end.
Proof. unfold observe_targets. by_registration self d w; reflexivity. Qed.

Lemma constructions_dispatch_events self request d w :
  constructions (dispatch_events self request d w) =
  match registration self w with
  | Registered =>
      [(w_next_obj w, KCounter, counter_name self);
       (S (w_next_obj w), KHistogram, histogram_name self)]
  | HistogramRefused => [(w_next_obj w, KCounter, counter_name self)]
  | CounterRefused => []
  end.
Proof. unfold constructions. by_registration self d w; reflexivity. Qed.


Lemma logged_dispatch_events self request d w :
  logged (dispatch_events self request d w) = logged (lookup_log self (dn_scope d)).
Proof. unfold logged. by_registration self d w; reflexivity. Qed.

Lemma clock_reads_dispatch_events self request d w :
  clock_reads (dispatch_events self request d w) =
  [w_clock w (w_now w); w_clock w (end_instant self d w)].
Proof. unfold clock_reads. by_registration self d w; reflexivity. Qed.

Lemma calls_next_dispatch_events self request d w :
  calls_next (dispatch_events self request d w) = [request].
Proof. unfold calls_next. by_registration self d w; reflexivity. Qed.

Lemma lookup_log_logged self scope :
  lookup_log self scope = EvLogError <$> logged (lookup_log self scope).
Proof.
  destruct (lookup_log_cases self scope) as [->|[e ->]]; reflexivity.
Qed.

Lemma logged_recorded self request call_next w :
  logged (recorded self request call_next w) =
  logged (lookup_log self (dn_scope (call_next request (w_scope w)))).
Proof. rewrite recorded_eq. apply logged_dispatch_events. Qed.

(** What a call reports satisfies every property of its two samples. *)
Lemma reported_dispatch self request call_next w (P : Sample -> Prop) :
  P (call_sample self request (call_next request (w_scope w)) KCounter (counter_name self)) ->
  P (call_sample self request (call_next request (w_scope w)) KHistogram (histogram_name self)) ->
  reported (recorded self request call_next w) P.
Proof.
  intros Hc Hh. unfold reported. rewrite recorded_eq.
  rewrite increments_dispatch_events, observations_dispatch_events,
    inc_targets_dispatch_events, observe_targets_dispatch_events.
  destruct (registration self w); repeat split; repeat constructor; assumption.
Qed.

(** With neither name registered, a call reports once to each metric. *)
Lemma both_metrics_dispatch self request call_next w (P : Sample -> Prop) :
  unregistered self w ->
  P (call_sample self request (call_next request (w_scope w)) KCounter (counter_name self)) ->
  P (call_sample self request (call_next request (w_scope w)) KHistogram (histogram_name self)) ->
  both_metrics (recorded self request call_next w) P.
Proof.
  intros Hu Hc Hh. unfold both_metrics. rewrite recorded_eq.
  rewrite increments_dispatch_events, observations_dispatch_events,
    inc_targets_dispatch_events, observe_targets_dispatch_events.
  rewrite (registration_registered _ _ Hu).
  eexists _, _, _. repeat split; assumption.
Qed.

(** The two together, for a property of the labels alone. *)
Lemma reports_dispatch self request call_next w (P : Sample -> Prop) :
  (forall kind name,
     P (call_sample self request (call_next request (w_scope w)) kind name)) ->
  reported (recorded self request call_next w) P /\
  (unregistered self w -> both_metrics (recorded self request call_next w) P).
Proof.
  intros HP. split; [apply reported_dispatch; apply HP|].
  intros Hu. apply both_metrics_dispatch; [exact Hu| |]; apply HP.
Qed.

(** With one of the names registered, a call raises the error of the
    registry and reports nothing. *)
Lemma refused_dispatch self request call_next w :
  ~ unregistered self w ->
  (outcome self request call_next w = inl (Duplicated (counter_name self)) \/
   outcome self request call_next w = inl (Duplicated (histogram_name self))) /\
  inc_targets (recorded self request call_next w) = [] /\
  observe_targets (recorded self request call_next w) = [].
Proof.
  intros Hn. rewrite outcome_eq, recorded_eq.
  rewrite inc_targets_dispatch_events, observe_targets_dispatch_events.
  unfold dispatch_outcome.
  destruct (registration_cases self w) as [[_ Hu]|[[-> _]|[-> _]]]; [contradiction| |];
    auto.
Qed.

Lemma grouping_true self scope target :
  group_paths self = true -> scope !! "endpoint" = Some target ->
  truthy target = true -> grouping self scope = true.
Proof.
  intros Hg Hs Ht. unfold grouping, dict_get. rewrite Hg, Hs, Ht. reflexivity.
Qed.

Lemma final_path_raw self request scope :
  grouping self scope = false -> final_path self request scope = url_path (url request).
Proof. intros H. unfold final_path. rewrite H. reflexivity. Qed.

Lemma final_path_found self request scope T :
  grouping self scope = true -> find_route_path scope = inr T ->
  final_path self request scope = T.
Proof. intros H1 H2. unfold final_path. rewrite H1, H2. reflexivity. Qed.

Lemma final_path_failed self request scope e :
  find_route_path scope = inl e ->
  final_path self request scope = url_path (url request).
Proof.
  intros H. unfold final_path. rewrite H. destruct (grouping self scope); reflexivity.
Qed.

Lemma label_path self request d kind name :
  label "path" (call_sample self request d kind name)
  = Some (final_path self request (dn_scope d)).
Proof. reflexivity. Qed.

Lemma label_status_code self request d kind name :
  label "status_code" (call_sample self request d kind name)
  = Some (pretty (final_status (dn_outcome d))).
Proof. reflexivity. Qed.

(** Evaluation of a closed instance. *)
Ltac evaluate := vm_compute; reflexivity.

(** Membership of a name in a registry that is given. *)
Ltac unregistered_here := split; vm_compute; intros Hin; discriminate Hin.

(** ** Traces of sample calls, by evaluation of [dispatch] *)

(** [GET /items/42] answered with 200 in a process that has constructed
    no metric yet, the route table scanned with success: the template is
    reported, the status code as its numeral, and the amount observed is
    the difference of two floating-point readings. *)
Example trace_of_grouped_call :
  call_dispatch Sample_app.grouped Sample_app.get_item
    (Sample_app.responds 200 Sample_app.plain_routes) Sample_app.boot
  = (inr (mk_response 200 "item"),
     Sample_app.grouped,
     mk_world 1007 Sample_app.clock 2
       (Sample_app.resolve Sample_app.plain_routes ∅)
       {["svc_request_duration_seconds"; "svc_requests_total"]} 2
       [EvTime (Sample_app.clock 1000);
        EvCallNext Sample_app.get_item;
        EvTime (Sample_app.clock 1007);
        EvCounter 0 "svc_requests_total" "Total HTTP requests"
          ["method"; "path"; "status_code"; "app_name"];
        EvHistogram 1 "svc_request_duration_seconds"
          "HTTP request duration, in seconds"
          ["method"; "path"; "status_code"; "app_name"];
        EvInc 0 ["GET"; "/items/{id}"; "200"; "svc"];
        EvObserve 1 ["GET"; "/items/{id}"; "200"; "svc"]
          (PrimFloat.sub (Sample_app.clock 1007) (Sample_app.clock 1000))]).
Proof. vm_compute. reflexivity. Qed.

(** The same request once more in the same process: the registry holds
    the counter's name, the constructor raises in the final block, and
    the response of the downstream call is lost. *)
Example trace_of_second_call :
  (outcome Sample_app.grouped Sample_app.get_item
     (Sample_app.responds 200 Sample_app.plain_routes) Sample_app.served,
   recorded Sample_app.grouped Sample_app.get_item
     (Sample_app.responds 200 Sample_app.plain_routes) Sample_app.served)
  = (inl (Duplicated "svc_requests_total"),
     [EvTime (Sample_app.clock 1007);
      EvCallNext Sample_app.get_item;
      EvTime (Sample_app.clock 1014);
      EvDuplicate KCounter "svc_requests_total"]).
Proof. vm_compute. reflexivity. Qed.

(** The downstream call raises, and the scan meets the mounted
    sub-application: the lookup failure is logged, the raw path is
    reported with status 500, and the exception of the downstream call
    comes out. *)
Example trace_of_crashing_call :
  (outcome Sample_app.grouped Sample_app.get_item
     (Sample_app.crashes Sample_app.mounted_routes) Sample_app.boot,
   recorded Sample_app.grouped Sample_app.get_item
     (Sample_app.crashes Sample_app.mounted_routes) Sample_app.boot)
  = (inl Sample_app.boom,
     [EvTime (Sample_app.clock 1000);
      EvCallNext Sample_app.get_item;
      EvLogError (AttributeError "endpoint");
      EvTime (Sample_app.clock 1007);
      EvCounter 0 "svc_requests_total" "Total HTTP requests"
        ["method"; "path"; "status_code"; "app_name"];
      EvHistogram 1 "svc_request_duration_seconds"
        "HTTP request duration, in seconds"
        ["method"; "path"; "status_code"; "app_name"];
      EvInc 0 ["GET"; "/items/42"; "500"; "svc"];
      EvObserve 1 ["GET"; "/items/42"; "500"; "svc"]
        (PrimFloat.sub (Sample_app.clock 1007) (Sample_app.clock 1000))]).
Proof. vm_compute. reflexivity. Qed.

Lemma boot_unregistered self : unregistered self Sample_app.boot.
Proof. split; cbn [Sample_app.boot w_registry]; apply not_elem_of_empty. Qed.

Lemma served_registered : counter_name Sample_app.grouped ∈ w_registry Sample_app.served.
Proof. vm_compute. reflexivity. Qed.

(** ** Properties of [dispatch] *)

(** C1, at the input where the code departs from it.  The second
    request of a process: the downstream call raises, the counter's
    name is registered already, and the constructor of line 64 raises
    in the final block.  The exception that comes out is the error of
    the registry, not the one the downstream call raised, and no
    increment and no observation is made. *)
Theorem second_failure_is_replaced :
  let call_next := Sample_app.crashes Sample_app.plain_routes in
  dn_outcome (call_next Sample_app.get_item (w_scope Sample_app.served))
    = inl Sample_app.boom /\
  outcome Sample_app.grouped Sample_app.get_item call_next Sample_app.served
    = inl (Duplicated "svc_requests_total") /\
  outcome Sample_app.grouped Sample_app.get_item call_next Sample_app.served
    <> inl Sample_app.boom /\
  nothing_recorded
    (recorded Sample_app.grouped Sample_app.get_item call_next Sample_app.served).
Proof.
  cbv zeta. split; [evaluate|]. split; [evaluate|]. split.
  - vm_compute. discriminate.
  - repeat split; evaluate.
Qed.

(** C2, at the input where the code departs from it.  The second
    request of a process: the downstream call returns a response with
    status 200, the constructor of line 64 raises in the final block,
    the response is not returned and nothing is recorded. *)
Theorem second_response_is_lost :
  let call_next := Sample_app.responds 200 Sample_app.plain_routes in
  dn_outcome (call_next Sample_app.get_item (w_scope Sample_app.served))
    = inr (mk_response 200 "item") /\
  outcome Sample_app.grouped Sample_app.get_item call_next Sample_app.served
    = inl (Duplicated "svc_requests_total") /\
  nothing_recorded
    (recorded Sample_app.grouped Sample_app.get_item call_next Sample_app.served).
Proof.
  cbv zeta. split; [evaluate|]. split; [evaluate|]. repeat split; evaluate.
Qed.

(** C3, at the input where the code departs from it.  With
    [group_paths] on, the endpoint resolved and registered once, under
    [/items/{id}], a table that also holds a mounted sub-application
    makes the scan of line 58 raise on the entry without an endpoint:
    the error is logged and the path reported to both metrics for
    [GET /items/42] is the raw path, not the template. *)
Theorem template_lost_behind_mount :
  let call_next := Sample_app.responds 200 Sample_app.mounted_routes in
  let d := call_next Sample_app.get_item (w_scope Sample_app.boot) in
  let evs := recorded Sample_app.grouped Sample_app.get_item call_next Sample_app.boot in
  group_paths Sample_app.grouped = true /\
  dn_scope d !! "endpoint" = Some (PCallable 1) /\
  dn_scope d !! "router" = Some (PRouter Sample_app.mounted_routes) /\
  List.filter (route_matches (PCallable 1)) Sample_app.mounted_routes
    = [mk_route (Some "/items/{id}") (Some 1%nat)] /\
  logged evs = [AttributeError "endpoint"] /\
  label "path" <$> increments evs = [Some "/items/42"] /\
  (fun o => label "path" o.1) <$> observations evs = [Some "/items/42"] /\
  Some "/items/42" <> Some "/items/{id}".
Proof.
  cbv zeta. repeat (split; [evaluate|]). discriminate.
Qed.

(** C4.  When [group_paths] is off, and also when it is on and the
    scope holds no resolved endpoint after the downstream call, the
    path label of whatever the call reports is the raw path of the
    request; and with the names of the two metrics not yet registered,
    the call reports it once to the counter and once to the
    histogram. *)
Theorem raw_path_without_grouping self request call_next w :
  group_paths self = false \/
  dn_scope (call_next request (w_scope w)) !! "endpoint" = None ->
  reported (recorded self request call_next w)
    (fun s => label "path" s = Some (url_path (url request))) /\
  (unregistered self w ->
   both_metrics (recorded self request call_next w)
     (fun s => label "path" s = Some (url_path (url request)))).
Proof.
  intros H. apply reports_dispatch. intros kind name.
  rewrite label_path, final_path_raw; [reflexivity|].
  unfold grouping, dict_get. destruct H as [-> | ->]; [reflexivity|].
  apply andb_false_r.
Qed.

Lemma raw_path_witness :
  both_metrics
    (recorded Sample_app.ungrouped Sample_app.get_item
       (Sample_app.responds 200 Sample_app.plain_routes) Sample_app.boot)
    (fun s => label "path" s = Some "/items/42") /\
  both_metrics
    (recorded Sample_app.grouped Sample_app.get_item Sample_app.not_found Sample_app.boot)
    (fun s => label "path" s = Some "/items/42").
Proof.
  split.
  - apply (raw_path_without_grouping Sample_app.ungrouped Sample_app.get_item
             (Sample_app.responds 200 Sample_app.plain_routes) Sample_app.boot).
    + left. evaluate.
    + apply boot_unregistered.
  - apply (raw_path_without_grouping Sample_app.grouped Sample_app.get_item
             Sample_app.not_found Sample_app.boot).
    + right. evaluate.
    + apply boot_unregistered.
Defined.

Lemma outcome_without_grouping self request call_next w :
  outcome self request call_next w
  = outcome (without_grouping self) request call_next w.
Proof. rewrite !outcome_eq. reflexivity. Qed.

Lemma samples_after_failure self request call_next w e :
  find_route_path (dn_scope (call_next request (w_scope w))) = inl e ->
  increments (recorded self request call_next w)
    = increments (recorded (without_grouping self) request call_next w) /\
  (observations (recorded self request call_next w)).*1
    = (observations (recorded (without_grouping self) request call_next w)).*1.
Proof.
  intros Hfail. rewrite !recorded_eq.
  rewrite !increments_dispatch_events, !observations_dispatch_events.
  change (registration (without_grouping self) w) with (registration self w).
  assert (Hs : forall kind name,
    call_sample (without_grouping self) request (call_next request (w_scope w)) kind name
    = call_sample self request (call_next request (w_scope w)) kind name).
  { intros kind name. unfold call_sample, final_labels.
    rewrite (final_path_failed self _ _ _ Hfail).
    rewrite (final_path_failed (without_grouping self) _ _ _ Hfail). reflexivity. }
  change (counter_name (without_grouping self)) with (counter_name self).
  change (histogram_name (without_grouping self)) with (histogram_name self).
  rewrite !Hs. destruct (registration self w); split; reflexivity.
Qed.

(** C5, as stated, fails.  Several entries matching the resolved
    endpoint is no failure of the lookup: the first of them is taken,
    nothing is logged, and the path reported is its template, not the
    raw path. *)
Lemma doubled_route_is_not_a_failure :
  let call_next := Sample_app.responds 200 Sample_app.doubled_routes in
  let d := call_next Sample_app.get_item (w_scope Sample_app.boot) in
  let evs := recorded Sample_app.grouped Sample_app.get_item call_next Sample_app.boot in
  group_paths Sample_app.grouped = true /\
  dn_scope d !! "endpoint" = Some (PCallable 1) /\
  dn_scope d !! "router" = Some (PRouter Sample_app.doubled_routes) /\
  length (List.filter (route_matches (PCallable 1)) Sample_app.doubled_routes) = 2%nat /\
  logged evs = [] /\
  label "path" <$> increments evs = [Some "/things/{id}"] /\
  (fun o => label "path" o.1) <$> observations evs = [Some "/things/{id}"] /\
  Some "/things/{id}" <> Some (url_path (url Sample_app.get_item)).
Proof.
  cbv zeta. repeat (split; [evaluate|]). discriminate.
Qed.

(** C5, amended.  With [group_paths] on and an endpoint resolved:
    when the lookup of line 58 raises (the scope has no router, the
    router has no route table, an entry has no endpoint, no entry
    matches, or the first match has no path), the exception is logged,
    the path label of whatever the call reports is the raw path, and the
    failure of the lookup changes neither the outcome of the call nor
    its samples, which are those of the same call with [group_paths]
    off; when every entry has an endpoint and one or several entries
    match, nothing is logged and the path label is the template of the
    first of them. *)
Theorem lookup_failure_falls_back self request call_next w target :
  group_paths self = true ->
  dn_scope (call_next request (w_scope w)) !! "endpoint" = Some target ->
  truthy target = true ->
  (forall e,
     find_route_path (dn_scope (call_next request (w_scope w))) = inl e ->
     logged (recorded self request call_next w) = [e] /\
     reported (recorded self request call_next w)
       (fun s => label "path" s = Some (url_path (url request))) /\
     (unregistered self w ->
      both_metrics (recorded self request call_next w)
        (fun s => label "path" s = Some (url_path (url request)))) /\
     outcome self request call_next w
       = outcome (without_grouping self) request call_next w /\
     increments (recorded self request call_next w)
       = increments (recorded (without_grouping self) request call_next w) /\
     (observations (recorded self request call_next w)).*1
       = (observations (recorded (without_grouping self) request call_next w)).*1) /\
  (forall routes route T,
     dn_scope (call_next request (w_scope w)) !! "router" = Some (PRouter routes) ->
     Forall has_endpoint routes ->
     head (List.filter (route_matches target) routes) = Some route ->
     route_path route = Some T ->
     logged (recorded self request call_next w) = [] /\
     reported (recorded self request call_next w)
       (fun s => label "path" s = Some T) /\
     (unregistered self w ->
      both_metrics (recorded self request call_next w)
        (fun s => label "path" s = Some T))).
Proof.
  intros Hg Hep Ht.
  pose proof (grouping_true _ _ _ Hg Hep Ht) as Hgr.
  split.
  - intros e Hfail. split; [|split; [|split; [|split; [|split]]]].
    + rewrite logged_recorded. unfold lookup_log. rewrite Hgr, Hfail. reflexivity.
    + apply reports_dispatch. intros kind name.
      rewrite label_path, (final_path_failed _ _ _ _ Hfail). reflexivity.
    + apply reports_dispatch. intros kind name.
      rewrite label_path, (final_path_failed _ _ _ _ Hfail). reflexivity.
    + apply outcome_without_grouping.
    + eapply samples_after_failure, Hfail.
    + eapply samples_after_failure, Hfail.
  - intros routes route T Hr Hall Hfirst HT.
    pose proof (find_route_path_first _ _ _ _ _ Hep Hr Hall Hfirst HT) as Hfound.
    split; [|apply reports_dispatch; intros kind name;
             rewrite label_path, (final_path_found _ _ _ T Hgr Hfound); reflexivity].
    rewrite logged_recorded. unfold lookup_log. rewrite Hgr, Hfound. reflexivity.
Qed.

Lemma lookup_failure_witness :
  (logged (recorded Sample_app.grouped Sample_app.get_item
             (Sample_app.crashes Sample_app.mounted_routes) Sample_app.boot)
     = [AttributeError "endpoint"] /\
   both_metrics
     (recorded Sample_app.grouped Sample_app.get_item
        (Sample_app.crashes Sample_app.mounted_routes) Sample_app.boot)
     (fun s => label "path" s = Some "/items/42")) /\
  (logged (recorded Sample_app.grouped Sample_app.get_item
             (Sample_app.responds 200 Sample_app.doubled_routes) Sample_app.boot)
     = [] /\
   both_metrics
     (recorded Sample_app.grouped Sample_app.get_item
        (Sample_app.responds 200 Sample_app.doubled_routes) Sample_app.boot)
     (fun s => label "path" s = Some "/things/{id}")).
Proof.
  split.
  - destruct (lookup_failure_falls_back Sample_app.grouped Sample_app.get_item
                (Sample_app.crashes Sample_app.mounted_routes) Sample_app.boot
                (PCallable 1)) as [Hfails _]; [evaluate|evaluate|evaluate|].
    destruct (Hfails (AttributeError "endpoint")) as (Hlog & _ & Hboth & _); [evaluate|].
    split; [exact Hlog|]. apply Hboth, boot_unregistered.
  - destruct (lookup_failure_falls_back Sample_app.grouped Sample_app.get_item
                (Sample_app.responds 200 Sample_app.doubled_routes) Sample_app.boot
                (PCallable 1)) as [_ Hfound]; [evaluate|evaluate|evaluate|].
    destruct (Hfound Sample_app.doubled_routes
                (mk_route (Some "/things/{id}") (Some 1%nat)) "/things/{id}")
      as (Hlog & _ & Hboth).
    + evaluate.
    + repeat constructor; eexists; reflexivity.
    + evaluate.
    + reflexivity.
    + split; [exact Hlog|]. apply Hboth, boot_unregistered.
Defined.

(** C6.  Whatever a call reports goes to a counter named after the
    application name followed by [_requests_total] or to a histogram
    named after it followed by [_request_duration_seconds], and carries
    the labels [method], [path], [status_code], [app_name] in that
    order, with the method of the request, the path, the status code and
    the application name as their values; with the two names not yet
    registered the call reports once to each. *)
Theorem metric_names_and_label_order self request call_next w :
  reported (recorded self request call_next w)
    (sample_as_written self request (call_next request (w_scope w))) /\
  (unregistered self w ->
   both_metrics (recorded self request call_next w)
     (sample_as_written self request (call_next request (w_scope w)))).
Proof.
  split; [|intros Hu]; [apply reported_dispatch|apply both_metrics_dispatch; [exact Hu| |]];
    split; reflexivity.
Qed.

Lemma metric_names_witness :
  both_metrics
    (recorded Sample_app.grouped Sample_app.get_item
       (Sample_app.responds 200 Sample_app.plain_routes) Sample_app.boot)
    (fun s =>
       sample_metric s
         = match sample_kind s with
           | KCounter => "svc_requests_total"
           | KHistogram => "svc_request_duration_seconds"
           end /\
       sample_labels s
         = [("method", "GET"); ("path", "/items/{id}");
            ("status_code", "200"); ("app_name", "svc")]).
Proof.
  destruct (metric_names_and_label_order Sample_app.grouped Sample_app.get_item
              (Sample_app.responds 200 Sample_app.plain_routes) Sample_app.boot)
    as [_ Hboth].
  destruct (Hboth (boot_unregistered _))
    as (c & h & amount & Hc & Hh & Hi & Ho & Hkc & Hkh & [Hnc Hlc] & [Hnh Hlh]).
  exists c, h, amount. repeat split; assumption.
Defined.








(** C8.  The label values of whatever a call reports are the texts of
    the four values [dispatch] passes: the method, the path and the
    application name, which are strings, and the status code, an
    integer that [labels] converts to its decimal numeral before it is
    used as a label value. *)
Theorem label_values_are_strings self request call_next w :
  reported (recorded self request call_next w)
    (fun s =>
       sample_labels s
         = zip ["method"; "path"; "status_code"; "app_name"]
             (py_str <$>
              [PStr (method request);
               PStr (final_path self request (dn_scope (call_next request (w_scope w))));
               PInt (final_status (dn_outcome (call_next request (w_scope w))));
               PStr (app_name self)]) /\
       label "status_code" s
         = Some (pretty (final_status (dn_outcome (call_next request (w_scope w)))))) /\
  (unregistered self w ->
   both_metrics (recorded self request call_next w)
     (fun s =>
        sample_labels s
          = zip ["method"; "path"; "status_code"; "app_name"]
              (py_str <$>
               [PStr (method request);
                PStr (final_path self request (dn_scope (call_next request (w_scope w))));
                PInt (final_status (dn_outcome (call_next request (w_scope w))));
                PStr (app_name self)]) /\
        label "status_code" s
          = Some (pretty (final_status (dn_outcome (call_next request (w_scope w))))))).
Proof.
  apply reports_dispatch. intros kind name. split; reflexivity.
Qed.

Lemma label_values_witness :
  both_metrics
    (recorded Sample_app.grouped Sample_app.get_item
       (Sample_app.responds 200 Sample_app.plain_routes) Sample_app.boot)
    (fun s =>
       sample_labels s
         = [("method", "GET"); ("path", "/items/{id}");
            ("status_code", "200"); ("app_name", "svc")] /\
       label "status_code" s = Some "200").
Proof.
  destruct (label_values_are_strings Sample_app.grouped Sample_app.get_item
              (Sample_app.responds 200 Sample_app.plain_routes) Sample_app.boot)
    as [_ Hboth].
  destruct (Hboth (boot_unregistered _))
    as (c & h & amount & Hc & Hh & Hi & Ho & Hkc & Hkh & [Hlc Hsc] & [Hlh Hsh]).
  exists c, h, amount. repeat split; assumption.
Defined.

(** C9, as stated, fails.  Constructed without configuration
    arguments, the middleware has the application name ["starlette"],
    not ["app"]. *)
Lemma default_app_name_is_not_app :
  app_name (__init__ Sample_app.not_found None None) = "starlette" /\
  app_name (__init__ Sample_app.not_found None None) <> "app".
Proof. split; [reflexivity|discriminate]. Qed.

(** C9, amended.  Constructed without configuration arguments, the
    middleware has [group_paths] off and the application name
    ["starlette"]; arguments that are given are stored as they are; and
    no call of [dispatch] changes the object. *)
Theorem constructor_defaults_and_fixed_attributes app :
  group_paths (__init__ app None None) = false /\
  app_name (__init__ app None None) = "starlette" /\
  (forall flag name,
     group_paths (__init__ app (Some flag) (Some name)) = flag /\
     app_name (__init__ app (Some flag) (Some name)) = name) /\
  (forall flag name request call_next w,
     self_after (__init__ app flag name) request call_next w = __init__ app flag name).
Proof.
  repeat split. intros. apply self_after_eq.
Qed.

(** C10.  The clock is read twice in a call: once before the downstream
    continuation is invoked, with nothing in between, and once in the
    final block, after the route lookup and what it logs, at the
    instant the downstream call and, when the route table was scanned,
    the scan have led to.  Every amount the call observes is the
    floating-point difference of the second reading and the first, and
    with the two names not yet registered the call observes it once. *)
Theorem observed_duration_spans_route_lookup self request call_next w :
  let d := call_next request (w_scope w) in
  let scan := if grouping self (dn_scope d) then w_scan_time w else 0%Z in
  let t_begin := w_now w in
  let t_end := (w_now w + dn_elapsed d + scan)%Z in
  w_now (store_after self request call_next w) = t_end /\
  (exists rest,
     recorded self request call_next w =
       [EvTime (w_clock w t_begin); EvCallNext request]
       ++ (EvLogError <$> logged (recorded self request call_next w))
       ++ EvTime (w_clock w t_end) :: rest /\
     clock_reads rest = []) /\
  clock_reads (recorded self request call_next w)
    = [w_clock w t_begin; w_clock w t_end] /\
  Forall (fun o => o.2 = PrimFloat.sub (w_clock w t_end) (w_clock w t_begin))
    (observations (recorded self request call_next w)) /\
  length (observations (recorded self request call_next w))
    = length (observe_targets (recorded self request call_next w)) /\
  (unregistered self w ->
   exists h,
     observations (recorded self request call_next w)
       = [(h, PrimFloat.sub (w_clock w t_end) (w_clock w t_begin))]).
Proof.
  cbv zeta. rewrite store_after_eq, logged_recorded, recorded_eq.
  rewrite clock_reads_dispatch_events, observations_dispatch_events,
    observe_targets_dispatch_events.
  unfold elapsed, end_instant, lookup_time.
  split; [reflexivity|]. split; [|split; [reflexivity|split; [|split]]].
  - exists (metric_events self request (call_next request (w_scope w)) w).
    unfold dispatch_events, end_instant, lookup_time.
    rewrite <- lookup_log_logged. split; [reflexivity|].
    unfold metric_events, clock_reads. destruct (registration self w); reflexivity.
  - destruct (registration self w); repeat constructor.
  - destruct (registration self w); reflexivity.
  - intros Hu. rewrite (registration_registered _ _ Hu). eexists. reflexivity.
Qed.

Lemma observed_duration_witness :
  exists h,
    observations
      (recorded Sample_app.grouped Sample_app.get_item
         (Sample_app.responds 200 Sample_app.plain_routes) Sample_app.boot)
    = [(h, PrimFloat.sub (Sample_app.clock 1007) (Sample_app.clock 1000))].
Proof.
  destruct (observed_duration_spans_route_lookup Sample_app.grouped Sample_app.get_item
              (Sample_app.responds 200 Sample_app.plain_routes) Sample_app.boot)
    as (_ & _ & _ & _ & _ & Hobs).
  exact (Hobs (boot_unregistered _)).
Defined.

(** ** Further properties of the route lookup *)

(** X1.  The lookup of line 58 returns a template exactly when the scope
    holds a router and an endpoint, every entry of the route table has
    an endpoint attribute, and the first entry whose endpoint is the one
    in the scope has a path: that path is the template returned. *)
Theorem find_route_path_succeeds_iff scope T :
  find_route_path scope = inr T <->
  exists routes target route,
    scope !! "router" = Some (PRouter routes) /\
    scope !! "endpoint" = Some target /\
    Forall has_endpoint routes /\
    head (List.filter (route_matches target) routes) = Some route /\
    route_path route = Some T.
Proof.
  split; [apply find_route_path_returns|].
  intros (routes & target & route & Hr & Ht & Hall & Hhead & Hp).
  eapply find_route_path_first; eauto.
Qed.

(** ** Further properties of [dispatch] *)

Lemma falls_back_after_failure self request call_next w target e :
  group_paths self = true ->
  dn_scope (call_next request (w_scope w)) !! "endpoint" = Some target ->
  truthy target = true ->
  find_route_path (dn_scope (call_next request (w_scope w))) = inl e ->
  logged (recorded self request call_next w) = [e] /\
  reported (recorded self request call_next w)
    (fun s => label "path" s = Some (url_path (url request))) /\
  (unregistered self w ->
   both_metrics (recorded self request call_next w)
     (fun s => label "path" s = Some (url_path (url request)))).
Proof.
  intros Hg Hep Ht Hfail. split.
  - rewrite logged_recorded. unfold lookup_log.
    rewrite (grouping_true _ _ _ Hg Hep Ht), Hfail. reflexivity.
  - apply reports_dispatch. intros kind name.
    rewrite label_path, (final_path_failed _ _ _ _ Hfail). reflexivity.
Qed.

(** X3.  With [group_paths] on and an endpoint resolved, one entry of
    the route table without an endpoint attribute defeats the grouping,
    wherever it stands in the table, also behind the entry of the
    resolved endpoint: the comprehension scans the whole table before
    its first element is taken.  The [AttributeError] is logged and the
    path label of whatever the call reports is the raw path; with the
    two names not yet registered the call reports once to each
    metric. *)
Theorem entry_without_endpoint_defeats_grouping
    self request call_next w target before route after :
  group_paths self = true ->
  dn_scope (call_next request (w_scope w)) !! "endpoint" = Some target ->
  truthy target = true ->
  dn_scope (call_next request (w_scope w)) !! "router"
    = Some (PRouter (before ++ route :: after)) ->
  Forall has_endpoint before ->
  route_endpoint route = None ->
  logged (recorded self request call_next w) = [AttributeError "endpoint"] /\
  reported (recorded self request call_next w)
    (fun s => label "path" s = Some (url_path (url request))) /\
  (unregistered self w ->
   both_metrics (recorded self request call_next w)
     (fun s => label "path" s = Some (url_path (url request)))).
Proof.
  intros Hg Hep Ht Hr Hb Hroute.
  eapply falls_back_after_failure; eauto.
  unfold find_route_path, dict_getitem. rewrite Hr. cbn [getattr_routes].
  rewrite routes_matching_no_endpoint; auto. rewrite Hep. discriminate.
Qed.

(** The mounted sub-application registered after the route of the
    endpoint. *)
Lemma mount_behind_route_witness :
  let call_next :=
    Sample_app.responds 200
      [Sample_app.item_route; mk_route (Some "/static") None] in
  logged (recorded Sample_app.grouped Sample_app.get_item call_next Sample_app.boot)
    = [AttributeError "endpoint"] /\
  both_metrics
    (recorded Sample_app.grouped Sample_app.get_item call_next Sample_app.boot)
    (fun s => label "path" s = Some "/items/42").
Proof.
  cbv zeta.
  destruct (entry_without_endpoint_defeats_grouping Sample_app.grouped
              Sample_app.get_item
              (Sample_app.responds 200
                 [Sample_app.item_route; mk_route (Some "/static") None])
              Sample_app.boot (PCallable 1)
              [Sample_app.item_route] (mk_route (Some "/static") None) [])
    as (Hlog & _ & Hboth).
  - evaluate.
  - evaluate.
  - evaluate.
  - evaluate.
  - repeat constructor. eexists. reflexivity.
  - reflexivity.
  - split; [exact Hlog|]. apply Hboth, boot_unregistered.
Defined.

(** X4.  With [group_paths] on and a true endpoint entry in the scope,
    a scope without the entry [router] makes line 58 raise [KeyError]:
    it is logged and the path label of whatever the call reports is the
    raw path; with the two names not yet registered the call reports
    once to each metric and delivers the outcome of the downstream
    call. *)
Theorem missing_router_falls_back self request call_next w target :
  group_paths self = true ->
  dn_scope (call_next request (w_scope w)) !! "endpoint" = Some target ->
  truthy target = true ->
  dn_scope (call_next request (w_scope w)) !! "router" = None ->
  logged (recorded self request call_next w) = [KeyError "router"] /\
  reported (recorded self request call_next w)
    (fun s => label "path" s = Some (url_path (url request))) /\
  (unregistered self w ->
   outcome self request call_next w = dn_outcome (call_next request (w_scope w)) /\
   both_metrics (recorded self request call_next w)
     (fun s => label "path" s = Some (url_path (url request)))).
Proof.
  intros Hg Hep Ht Hr.
  destruct (falls_back_after_failure self request call_next w target (KeyError "router"))
    as (Hlog & Hrep & Hboth); auto using find_route_path_no_router.
  split; [exact Hlog|]. split; [exact Hrep|]. intros Hu.
  split; [apply outcome_unregistered, Hu|apply Hboth, Hu].
Qed.

Lemma missing_router_witness :
  let call_next : Continuation :=
    fun _ scope =>
      mk_downstream (inr (mk_response 200 "item")) (<["endpoint" := PCallable 1]> scope) 5 in
  logged (recorded Sample_app.grouped Sample_app.get_item call_next Sample_app.boot)
    = [KeyError "router"] /\
  outcome Sample_app.grouped Sample_app.get_item call_next Sample_app.boot
    = inr (mk_response 200 "item") /\
  both_metrics
    (recorded Sample_app.grouped Sample_app.get_item call_next Sample_app.boot)
    (fun s => label "path" s = Some "/items/42").
Proof.
  cbv zeta.
  destruct (missing_router_falls_back Sample_app.grouped Sample_app.get_item
              (fun _ scope =>
                 mk_downstream (inr (mk_response 200 "item"))
                   (<["endpoint" := PCallable 1]> scope) 5)
              Sample_app.boot (PCallable 1))
    as (Hlog & _ & Hboth); [evaluate|evaluate|evaluate|evaluate|].
  split; [exact Hlog|]. apply Hboth, boot_unregistered.
Defined.

(** X5.  With [group_paths] on and an endpoint resolved, a route table
    in which no entry has the resolved endpoint (an empty table among
    them) makes the index [0] raise [IndexError]: it is logged and the
    path label of whatever the call reports is the raw path; with the
    two names not yet registered the call reports once to each
    metric. *)
Theorem unmatched_endpoint_falls_back self request call_next w target routes :
  group_paths self = true ->
  dn_scope (call_next request (w_scope w)) !! "endpoint" = Some target ->
  truthy target = true ->
  dn_scope (call_next request (w_scope w)) !! "router" = Some (PRouter routes) ->
  Forall has_endpoint routes ->
  List.filter (route_matches target) routes = [] ->
  logged (recorded self request call_next w) = [IndexError] /\
  reported (recorded self request call_next w)
    (fun s => label "path" s = Some (url_path (url request))) /\
  (unregistered self w ->
   both_metrics (recorded self request call_next w)
     (fun s => label "path" s = Some (url_path (url request)))).
Proof.
  intros Hg Hep Ht Hr Hall Hnone.
  eapply falls_back_after_failure; eauto.
  eapply find_route_path_no_match; eauto.
Qed.

Lemma unmatched_endpoint_witness :
  let call_next :=
    Sample_app.responds 200 [mk_route (Some "/health") (Some 0%nat)] in
  logged (recorded Sample_app.grouped Sample_app.get_item call_next Sample_app.boot)
    = [IndexError] /\
  both_metrics
    (recorded Sample_app.grouped Sample_app.get_item call_next Sample_app.boot)
    (fun s => label "path" s = Some "/items/42").
Proof.
  cbv zeta.
  destruct (unmatched_endpoint_falls_back Sample_app.grouped Sample_app.get_item
              (Sample_app.responds 200 [mk_route (Some "/health") (Some 0%nat)])
              Sample_app.boot (PCallable 1) [mk_route (Some "/health") (Some 0%nat)])
    as (Hlog & _ & Hboth).
  - evaluate.
  - evaluate.
  - evaluate.
  - evaluate.
  - repeat constructor. eexists. reflexivity.
  - evaluate.
  - split; [exact Hlog|]. apply Hboth, boot_unregistered.
Defined.

(** X6.  The path label of whatever a call reports is either the raw
    path of the request or, with [group_paths] on, the path of an entry
    of the route table whose endpoint is the endpoint in the scope: no
    other value reaches the label.  With the two names not yet
    registered the call reports once to each metric. *)
Theorem reported_path_is_raw_or_registered self request call_next w :
  reported (recorded self request call_next w)
    (raw_or_registered self request (dn_scope (call_next request (w_scope w)))) /\
  (unregistered self w ->
   both_metrics (recorded self request call_next w)
     (raw_or_registered self request (dn_scope (call_next request (w_scope w))))).
Proof.
  apply reports_dispatch. intros kind name.
  exists (final_path self request (dn_scope (call_next request (w_scope w)))).
  split; [apply label_path|].
  unfold final_path, grouping.
  destruct (group_paths self); [|left; reflexivity].
  destruct (truthy _); cbn [andb]; [|left; reflexivity].
  destruct (find_route_path _) as [e|T] eqn:Hl; [left; reflexivity|].
  right. split; [reflexivity|].
  destruct (find_route_path_returns _ _ Hl)
    as (routes & target & route & Hr & Ht & _ & Hhead & Hp).
  destruct (head_filter_elem _ _ _ Hhead) as [Hin Hm].
  exists routes, target, route. auto.
Qed.

Lemma raw_or_registered_witness :
  both_metrics
    (recorded Sample_app.grouped Sample_app.get_item
       (Sample_app.responds 200 Sample_app.plain_routes) Sample_app.boot)
    (raw_or_registered Sample_app.grouped Sample_app.get_item
       (Sample_app.resolve Sample_app.plain_routes ∅)).
Proof.
  destruct (reported_path_is_raw_or_registered Sample_app.grouped Sample_app.get_item
              (Sample_app.responds 200 Sample_app.plain_routes) Sample_app.boot)
    as [_ Hboth].
  exact (Hboth (boot_unregistered _)).
Defined.

(** X7.  An [endpoint] entry of the scope that is present and false
    ([None], for one) is treated like a missing one: the route table is
    not scanned, nothing is logged, the second reading of the clock is
    taken at the instant the downstream call has led to, and the path
    label of whatever the call reports is the raw path. *)
Theorem falsy_endpoint_is_not_grouped self request call_next w v :
  dn_scope (call_next request (w_scope w)) !! "endpoint" = Some v ->
  truthy v = false ->
  logged (recorded self request call_next w) = [] /\
  clock_reads (recorded self request call_next w)
    = [w_clock w (w_now w);
       w_clock w (w_now w + dn_elapsed (call_next request (w_scope w)))%Z] /\
  reported (recorded self request call_next w)
    (fun s => label "path" s = Some (url_path (url request))) /\
  (unregistered self w ->
   both_metrics (recorded self request call_next w)
     (fun s => label "path" s = Some (url_path (url request)))).
Proof.
  intros Hep Hv.
  assert (Hg : grouping self (dn_scope (call_next request (w_scope w))) = false).
  { unfold grouping, dict_get. rewrite Hep, Hv. apply andb_false_r. }
  split; [|split].
  - rewrite logged_recorded. unfold lookup_log. rewrite Hg. reflexivity.
  - rewrite recorded_eq, clock_reads_dispatch_events.
    unfold end_instant, lookup_time. rewrite Hg, Z.add_0_r. reflexivity.
  - apply reports_dispatch. intros kind name.
    rewrite label_path, (final_path_raw _ _ _ Hg). reflexivity.
Qed.

Lemma falsy_endpoint_witness :
  let call_next : Continuation :=
    fun _ scope =>
      mk_downstream (inr (mk_response 200 "item"))
        (<["endpoint" := PNone]> (<["router" := PRouter Sample_app.plain_routes]> scope)) 5 in
  logged (recorded Sample_app.grouped Sample_app.get_item call_next Sample_app.boot) = [] /\
  both_metrics
    (recorded Sample_app.grouped Sample_app.get_item call_next Sample_app.boot)
    (fun s => label "path" s = Some "/items/42").
Proof.
  cbv zeta.
  destruct (falsy_endpoint_is_not_grouped Sample_app.grouped Sample_app.get_item
              (fun _ scope =>
                 mk_downstream (inr (mk_response 200 "item"))
                   (<["endpoint" := PNone]>
                      (<["router" := PRouter Sample_app.plain_routes]> scope)) 5)
              Sample_app.boot PNone)
    as (Hlog & _ & _ & Hboth); [evaluate|evaluate|].
  split; [exact Hlog|]. apply Hboth, boot_unregistered.
Defined.

(** X8.  With [group_paths] on, the path reported after a lookup that
    succeeds depends on the router and the endpoint in the scope only:
    for two requests resolved to the same endpoint of the same router,
    whatever their methods and raw paths, the path label of whatever the
    two calls report is the same template. *)
Theorem grouped_path_ignores_raw_path
    self request1 request2 next1 next2 w1 w2 target T :
  group_paths self = true ->
  dn_scope (next1 request1 (w_scope w1)) !! "router"
    = dn_scope (next2 request2 (w_scope w2)) !! "router" ->
  dn_scope (next1 request1 (w_scope w1)) !! "endpoint" = Some target ->
  dn_scope (next2 request2 (w_scope w2)) !! "endpoint" = Some target ->
  truthy target = true ->
  find_route_path (dn_scope (next1 request1 (w_scope w1))) = inr T ->
  (reported (recorded self request1 next1 w1) (fun s => label "path" s = Some T) /\
   (unregistered self w1 ->
    both_metrics (recorded self request1 next1 w1) (fun s => label "path" s = Some T))) /\
  (reported (recorded self request2 next2 w2) (fun s => label "path" s = Some T) /\
   (unregistered self w2 ->
    both_metrics (recorded self request2 next2 w2) (fun s => label "path" s = Some T))).
Proof.
  intros Hg Hr He1 He2 Ht Hl.
  assert (Hl2 : find_route_path (dn_scope (next2 request2 (w_scope w2))) = inr T).
  { rewrite <- Hl. apply find_route_path_ext; congruence. }
  split; apply reports_dispatch; intros kind name; rewrite label_path.
  - rewrite (final_path_found self request1 _ T); [reflexivity| |exact Hl].
    eapply grouping_true; eauto.
  - rewrite (final_path_found self request2 _ T); [reflexivity| |exact Hl2].
    eapply grouping_true; eauto.
Qed.

Lemma grouped_path_ignores_raw_path_witness :
  let delete_item := mk_request "DELETE" (mk_url "/items/7") in
  let call_next := Sample_app.responds 200 Sample_app.plain_routes in
  both_metrics
    (recorded Sample_app.grouped Sample_app.get_item call_next Sample_app.boot)
    (fun s => label "path" s = Some "/items/{id}") /\
  both_metrics
    (recorded Sample_app.grouped delete_item call_next Sample_app.boot)
    (fun s => label "path" s = Some "/items/{id}").
Proof.
  cbv zeta.
  destruct (grouped_path_ignores_raw_path Sample_app.grouped Sample_app.get_item
              (mk_request "DELETE" (mk_url "/items/7"))
              (Sample_app.responds 200 Sample_app.plain_routes)
              (Sample_app.responds 200 Sample_app.plain_routes)
              Sample_app.boot Sample_app.boot (PCallable 1) "/items/{id}")
    as [[_ H1] [_ H2]]; [evaluate|evaluate|evaluate|evaluate|evaluate|evaluate|].
  split; [apply H1|apply H2]; apply boot_unregistered.
Defined.

(** X9.  A call logs at most one error, and an exception is logged
    exactly when [group_paths] is on, the scope holds a true [endpoint]
    and the lookup of line 58 raised that exception.  An exception of
    the downstream call is not logged by the middleware. *)
Theorem logged_iff_lookup_failed self request call_next w e :
  (length (logged (recorded self request call_next w)) <= 1)%nat /\
  (e ∈ logged (recorded self request call_next w) <->
   group_paths self = true /\
   truthy (dict_get (dn_scope (call_next request (w_scope w))) "endpoint" PNone) = true /\
   find_route_path (dn_scope (call_next request (w_scope w))) = inl e).
Proof.
  rewrite logged_recorded. unfold lookup_log, grouping.
  destruct (group_paths self); cbn [andb].
  - destruct (truthy _).
    + destruct (find_route_path _) as [e'|T]; cbn.
      * split; [lia|]. rewrite list_elem_of_singleton. split.
        -- intros ->. auto.
        -- intros (_ & _ & [= ->]). reflexivity.
      * split; [lia|]. split; [intros H; inversion H|intros (_ & _ & [=])].
    + cbn. split; [lia|]. split; [intros H; inversion H|intros (_ & [=] & _)].
  - cbn. split; [lia|]. split; [intros H; inversion H|intros ([=] & _)].
Qed.

(** X10.  A call invokes the downstream continuation exactly once, with
    the request it was given and the scope as it stood at entry, and
    does not write to the scope itself: after the call [request.scope]
    is as the downstream call left it. *)
Theorem call_next_invoked_once self request call_next w :
  calls_next (recorded self request call_next w) = [request] /\
  w_scope (store_after self request call_next w)
    = dn_scope (call_next request (w_scope w)).
Proof.
  rewrite recorded_eq, store_after_eq, calls_next_dispatch_events.
  split; reflexivity.
Qed.

(** ** The registry across calls *)

Lemma registry_after_elem self w name :
  name ∈ registry_after self w ->
  name ∈ w_registry w \/ name = counter_name self \/ name = histogram_name self.
Proof.
  unfold registry_after. destruct (registration self w);
    rewrite ?elem_of_union, ?elem_of_singleton; tauto.
Qed.

Lemma registry_after_registered self w :
  unregistered self w ->
  counter_name self ∈ registry_after self w /\
  histogram_name self ∈ registry_after self w.
Proof.
  intros Hu. unfold registry_after. rewrite (registration_registered _ _ Hu).
  rewrite !elem_of_union, !elem_of_singleton. auto.
Qed.

Lemma registry_after_keeps self w name :
  name ∈ w_registry w -> name ∈ registry_after self w.
Proof.
  intros Hin. unfold registry_after. destruct (registration self w);
    rewrite ?elem_of_union; auto.
Qed.

Lemma registry_store_after self request call_next w :
  w_registry (store_after self request call_next w) = registry_after self w.
Proof. rewrite store_after_eq. reflexivity. Qed.

Lemma nothing_recorded_refused self request call_next w :
  counter_name self ∈ w_registry w ->
  outcome self request call_next w = inl (Duplicated (counter_name self)) /\
  nothing_recorded (recorded self request call_next w).
Proof.
  intros Hc. rewrite outcome_eq, recorded_eq. unfold nothing_recorded, dispatch_outcome.
  rewrite inc_targets_dispatch_events, observe_targets_dispatch_events,
    constructions_dispatch_events.
  rewrite (registration_counter_refused _ _ Hc). repeat split.
Qed.

(** X11.  Middlewares with different application names do not bar each
    other: after a call of the one, whatever became of it, the names of
    the other are still free in the registry, and the other's call
    returns the outcome of its downstream call and reports once to each
    of its metrics. *)
Theorem different_applications_coexist
    self1 self2 request1 request2 next1 next2 w scope2 :
  app_name self1 <> app_name self2 ->
  unregistered self2 w ->
  unregistered self2 (with_scope scope2 (store_after self1 request1 next1 w)) /\
  outcome self2 request2 next2 (with_scope scope2 (store_after self1 request1 next1 w))
    = dn_outcome (next2 request2 scope2) /\
  both_metrics
    (recorded self2 request2 next2 (with_scope scope2 (store_after self1 request1 next1 w)))
    (fun s => label "app_name" s = Some (app_name self2)).
Proof.
  intros Hne [Hc Hh].
  assert (Hu : unregistered self2 (with_scope scope2 (store_after self1 request1 next1 w))).
  { unfold unregistered. cbn [with_scope w_registry]. rewrite registry_store_after.
    split; intros Hin; apply registry_after_elem in Hin;
      destruct Hin as [Hin|[Heq|Heq]]; try contradiction.
    - apply Hne. symmetry. exact (counter_name_inj _ _ Heq).
    - exact (counter_histogram_names _ _ Heq).
    - symmetry in Heq. exact (counter_histogram_names _ _ Heq).
    - apply Hne. symmetry. exact (histogram_name_inj _ _ Heq). }
  split; [exact Hu|]. split.
  - rewrite (outcome_unregistered _ _ _ _ Hu). reflexivity.
  - apply both_metrics_dispatch; [exact Hu| |]; reflexivity.
Qed.

Lemma different_applications_witness :
  both_metrics
    (recorded Sample_app.ungrouped Sample_app.get_item Sample_app.not_found
       Sample_app.served)
    (fun s => label "app_name" s = Some "starlette").
Proof.
  destruct (different_applications_coexist Sample_app.grouped Sample_app.ungrouped
              Sample_app.get_item Sample_app.get_item
              (Sample_app.responds 200 Sample_app.plain_routes) Sample_app.not_found
              Sample_app.boot ∅)
    as (_ & _ & Hboth); [discriminate|apply boot_unregistered|].
  exact Hboth.
Defined.

(** ** Calls in a row *)

Lemma inc_targets_app tr1 tr2 :
  inc_targets (tr1 ++ tr2) = inc_targets tr1 ++ inc_targets tr2.
Proof. apply omap_app. Qed.

Lemma observe_targets_app tr1 tr2 :
  observe_targets (tr1 ++ tr2) = observe_targets tr1 ++ observe_targets tr2.
Proof. apply omap_app. Qed.

Lemma calls_next_app tr1 tr2 :
  calls_next (tr1 ++ tr2) = calls_next tr1 ++ calls_next tr2.
Proof. apply omap_app. Qed.

Lemma constructions_app tr1 tr2 :
  constructions (tr1 ++ tr2) = constructions tr1 ++ constructions tr2.
Proof. apply omap_app. Qed.

(** Once the counter's name is registered, every call is refused. *)
Lemma serve_refused self exchanges :
  forall w, counter_name self ∈ w_registry w ->
    exists evs w',
      serve self exchanges w =
        ((fun _ => inl (Duplicated (counter_name self))) <$> exchanges, self, w') /\
      w_trace w' = w_trace w ++ evs /\
      calls_next evs = ex_request <$> exchanges /\
      inc_targets evs = [] /\
      observe_targets evs = [] /\
      constructions evs = [].
Proof.
  induction exchanges as [|ex rest IH]; intros w Hc.
  - exists [], w. cbn. rewrite app_nil_r. repeat split.
  - cbn [serve]. rewrite call_dispatch_eq. cbv zeta.
    set (w0 := with_scope (ex_scope ex) w).
    set (d := ex_call_next ex (ex_request ex) (w_scope w0)).
    assert (Hc0 : counter_name self ∈ w_registry w0) by exact Hc.
    destruct (IH (dispatch_world self (ex_request ex) d w0))
      as (evs & w' & Hs & Htr & Hcalls & Hi & Ho & Hk).
    { cbn [dispatch_world w_registry]. apply registry_after_keeps, Hc0. }
    rewrite Hs. unfold dispatch_outcome. rewrite (registration_counter_refused _ _ Hc0).
    exists (dispatch_events self (ex_request ex) d w0 ++ evs), w'.
    cbn [dispatch_world w_trace] in Htr. change (w_trace w0) with (w_trace w) in Htr.
    split; [reflexivity|]. split; [rewrite Htr, app_assoc; reflexivity|].
    rewrite calls_next_app, inc_targets_app, observe_targets_app, constructions_app.
    rewrite calls_next_dispatch_events, inc_targets_dispatch_events,
      observe_targets_dispatch_events, constructions_dispatch_events.
    rewrite (registration_counter_refused _ _ Hc0), Hcalls, Hi, Ho, Hk.
    repeat split.
Qed.

(** X13.  The method called for one request after the other by a
    process that starts with neither name registered: [call_next] is
    invoked once per request and in order, but only the first caller
    gets the outcome of its downstream call; every later caller gets the
    error of the registry, whatever its downstream call returned or
    raised.  In all, one increment and one observation are made and two
    metric objects are constructed, those of the first request. *)
Theorem serve_records_first_request_only self ex rest w :
  unregistered self w ->
  let '(rs, self', w') := serve self (ex :: rest) w in
  rs = dn_outcome (ex_call_next ex (ex_request ex) (ex_scope ex))
       :: ((fun _ => inl (Duplicated (counter_name self))) <$> rest) /\
  self' = self /\
  calls_next (emitted w w') = ex_request <$> (ex :: rest) /\
  length (inc_targets (emitted w w')) = 1%nat /\
  length (observe_targets (emitted w w')) = 1%nat /\
  length (constructions (emitted w w')) = 2%nat.
Proof.
  intros Hu. cbn [serve]. rewrite call_dispatch_eq. cbv zeta.
  set (w0 := with_scope (ex_scope ex) w).
  set (d := ex_call_next ex (ex_request ex) (w_scope w0)).
  assert (Hu0 : unregistered self w0) by exact Hu.
  destruct (serve_refused self rest (dispatch_world self (ex_request ex) d w0))
    as (evs & w' & Hs & Htr & Hcalls & Hi & Ho & Hk).
  { cbn [dispatch_world w_registry]. apply registry_after_registered, Hu0. }
  rewrite Hs. unfold dispatch_outcome. rewrite (registration_registered _ _ Hu0).
  cbn [dispatch_world w_trace] in Htr. change (w_trace w0) with (w_trace w) in Htr.
  unfold emitted. rewrite Htr, <- app_assoc, drop_app_length.
  rewrite calls_next_app, inc_targets_app, observe_targets_app, constructions_app.
  rewrite calls_next_dispatch_events, inc_targets_dispatch_events,
    observe_targets_dispatch_events, constructions_dispatch_events.
  rewrite (registration_registered _ _ Hu0), Hcalls, Hi, Ho, Hk.
  repeat split.
Qed.

Lemma serve_witness :
  (serve Sample_app.grouped
     [mk_exchange Sample_app.get_item ∅ (Sample_app.responds 200 Sample_app.plain_routes);
      mk_exchange Sample_app.get_item ∅ (Sample_app.responds 200 Sample_app.plain_routes);
      mk_exchange Sample_app.get_item ∅ (Sample_app.crashes Sample_app.plain_routes)]
     Sample_app.boot).1.1
  = [inr (mk_response 200 "item");
     inl (Duplicated "svc_requests_total");
     inl (Duplicated "svc_requests_total")].
Proof.
  pose proof (serve_records_first_request_only Sample_app.grouped
    (mk_exchange Sample_app.get_item ∅ (Sample_app.responds 200 Sample_app.plain_routes))
    [mk_exchange Sample_app.get_item ∅ (Sample_app.responds 200 Sample_app.plain_routes);
     mk_exchange Sample_app.get_item ∅ (Sample_app.crashes Sample_app.plain_routes)]
    Sample_app.boot (boot_unregistered _)) as H.
  destruct (serve _ _ _) as [[rs self'] w']. destruct H as [-> _]. reflexivity.
Defined.

(** ** A failure and a response with status 500 *)

(** X14.  The metrics do not tell a downstream call that raised from
    one that returned a response with status 500: when the two calls
    leave the same scope and take the same time, the calls made by the
    middleware are the same, event for event. *)
Theorem failure_reported_like_status_500
    self request next_raises next_responds w e response :
  dn_outcome (next_raises request (w_scope w)) = inl e ->
  dn_outcome (next_responds request (w_scope w)) = inr response ->
  status_code response = 500%Z ->
  dn_scope (next_raises request (w_scope w)) = dn_scope (next_responds request (w_scope w)) ->
  dn_elapsed (next_raises request (w_scope w)) = dn_elapsed (next_responds request (w_scope w)) ->
  recorded self request next_raises w = recorded self request next_responds w.
Proof.
  intros He Hr Hcode Hscope Helapsed. rewrite !recorded_eq.
  unfold dispatch_events, metric_events, elapsed, end_instant, final_labels.
  rewrite He, Hr, Hscope, Helapsed. cbn [final_status]. rewrite Hcode.
  reflexivity.
Qed.

Lemma failure_like_status_500_witness :
  recorded Sample_app.grouped Sample_app.get_item
    (Sample_app.crashes Sample_app.plain_routes) Sample_app.boot
  = recorded Sample_app.grouped Sample_app.get_item
      (Sample_app.responds 500 Sample_app.plain_routes) Sample_app.boot.
Proof.
  apply (failure_reported_like_status_500 Sample_app.grouped Sample_app.get_item
           (Sample_app.crashes Sample_app.plain_routes)
           (Sample_app.responds 500 Sample_app.plain_routes)
           Sample_app.boot Sample_app.boom (mk_response 500 "item")); evaluate.
Defined.

(** ** The first call and the calls after it *)

(** X15.  In a process where neither name is registered yet, a call
    returns what the downstream call returned and raises what it
    raised, makes exactly one increment and one observation, both with
    the status code of the response, or 500 after a failure, as their
    [status_code] label, and leaves both names registered. *)
Theorem first_call_is_transparent self request call_next w :
  unregistered self w ->
  outcome self request call_next w = dn_outcome (call_next request (w_scope w)) /\
  both_metrics (recorded self request call_next w)
    (fun s =>
       label "status_code" s
         = Some (pretty (match dn_outcome (call_next request (w_scope w)) with
                         | inr response => status_code response
                         | inl _ => 500%Z
                         end))) /\
  counter_name self ∈ w_registry (store_after self request call_next w) /\
  histogram_name self ∈ w_registry (store_after self request call_next w).
Proof.
  intros Hu. split; [apply outcome_unregistered, Hu|]. split.
  - apply both_metrics_dispatch; [exact Hu| |]; apply label_status_code.
  - rewrite registry_store_after. apply registry_after_registered, Hu.
Qed.

Lemma first_call_witness :
  outcome Sample_app.grouped Sample_app.get_item
    (Sample_app.crashes Sample_app.plain_routes) Sample_app.boot
    = inl Sample_app.boom /\
  both_metrics
    (recorded Sample_app.grouped Sample_app.get_item
       (Sample_app.crashes Sample_app.plain_routes) Sample_app.boot)
    (fun s => label "status_code" s = Some "500").
Proof.
  destruct (first_call_is_transparent Sample_app.grouped Sample_app.get_item
              (Sample_app.crashes Sample_app.plain_routes) Sample_app.boot
              (boot_unregistered _)) as (Hout & Hboth & _).
  split; [exact Hout|exact Hboth].
Defined.

(** X16.  With the name of the counter or of the histogram registered
    already, a call still invokes the downstream continuation, but it
    raises the error of the registry in place of the outcome of the
    downstream call and makes no increment and no observation. *)
Theorem registered_name_refuses_call self request call_next w :
  counter_name self ∈ w_registry w \/ histogram_name self ∈ w_registry w ->
  (outcome self request call_next w = inl (Duplicated (counter_name self)) \/
   outcome self request call_next w = inl (Duplicated (histogram_name self))) /\
  calls_next (recorded self request call_next w) = [request] /\
  inc_targets (recorded self request call_next w) = [] /\
  observe_targets (recorded self request call_next w) = [].
Proof.
  intros Hreg.
  destruct (refused_dispatch self request call_next w) as (Hout & Hi & Ho).
  { intros [Hc Hh]. destruct Hreg; contradiction. }
  split; [exact Hout|]. split; [|split; assumption].
  rewrite recorded_eq. apply calls_next_dispatch_events.
Qed.

Lemma registered_name_witness :
  (outcome Sample_app.grouped Sample_app.get_item
     (Sample_app.responds 200 Sample_app.plain_routes) Sample_app.served
   = inl (Duplicated "svc_requests_total") \/
   outcome Sample_app.grouped Sample_app.get_item
     (Sample_app.responds 200 Sample_app.plain_routes) Sample_app.served
   = inl (Duplicated "svc_request_duration_seconds")) /\
  calls_next (recorded Sample_app.grouped Sample_app.get_item
                (Sample_app.responds 200 Sample_app.plain_routes) Sample_app.served)
    = [Sample_app.get_item] /\
  inc_targets (recorded Sample_app.grouped Sample_app.get_item
                 (Sample_app.responds 200 Sample_app.plain_routes) Sample_app.served) = [] /\
  observe_targets (recorded Sample_app.grouped Sample_app.get_item
                     (Sample_app.responds 200 Sample_app.plain_routes) Sample_app.served) = [].
Proof.
  apply (registered_name_refuses_call Sample_app.grouped Sample_app.get_item
           (Sample_app.responds 200 Sample_app.plain_routes) Sample_app.served).
  left. exact served_registered.
Defined.

(** X17.  After a call that found neither name registered, a further
    call of a middleware with the same application name, on any
    request, is refused: it raises the error of the registry for the
    counter's name, whatever its downstream call returned or raised,
    and constructs and records nothing. *)
Theorem second_call_is_refused
    self self' request1 request2 next1 next2 w scope2 :
  unregistered self w ->
  app_name self' = app_name self ->
  outcome self' request2 next2 (with_scope scope2 (store_after self request1 next1 w))
    = inl (Duplicated (counter_name self)) /\
  nothing_recorded
    (recorded self' request2 next2 (with_scope scope2 (store_after self request1 next1 w))).
Proof.
  intros Hu Hname.
  assert (Heq : counter_name self' = counter_name self).
  { unfold counter_name. rewrite Hname. reflexivity. }
  rewrite <- Heq. apply nothing_recorded_refused.
  cbn [with_scope w_registry]. rewrite registry_store_after, Heq.
  apply registry_after_registered, Hu.
Qed.

Lemma second_call_witness :
  outcome Sample_app.grouped Sample_app.get_item
    (Sample_app.crashes Sample_app.plain_routes) Sample_app.served
    = inl (Duplicated "svc_requests_total") /\
  nothing_recorded
    (recorded Sample_app.grouped Sample_app.get_item
       (Sample_app.crashes Sample_app.plain_routes) Sample_app.served).
Proof.
  apply (second_call_is_refused Sample_app.grouped Sample_app.grouped
           Sample_app.get_item Sample_app.get_item
           (Sample_app.responds 200 Sample_app.plain_routes)
           (Sample_app.crashes Sample_app.plain_routes) Sample_app.boot ∅).
  - apply boot_unregistered.
  - reflexivity.
Defined.
